(** * REDEYE: a shallow embedding of [redeye.py]

    The program is a menu-driven front end for [nmap]: it checks and installs
    three prerequisite binaries, builds argument vectors from menu choices,
    launches them, and keeps scan artifacts in per-session directories.

    Layout of this development:
    - [Py]: the Python built-ins the program relies on ([str] methods,
      [int()], list indexing, [os.path.join] of [posixpath]);
    - [Sys]: the machine the program runs on (search path, file system,
      environment, clock), the console and the error-and-state monad [M];
    - the program's functions, under their own names, in a section over
      the two answers of the operating system the program cannot foresee;
    - the vocabulary of the properties and a few concrete machines;
    - the properties, C1 to C10, with the lemmas they rest on.

    Modelling conventions.  A Python [str] is a Rocq [string] holding its
    UTF-8 bytes; byte-wise order on UTF-8 is code-point order, so [sorted]
    is faithful.  [lower], [strip], [split] and [int] act on ASCII only.
    Paths follow [posixpath]. *)

From Stdlib Require Import String Ascii List ZArith Bool Lia.
From Stdlib Require Import Sorting.Mergesort Sorting.Sorted Sorting.Permutation.
From Stdlib Require Import Orders DecimalString.
Import ListNotations.

Local Open Scope list_scope.
Local Open Scope string_scope.

(* ===================================================================== *)
(** ** Python built-ins *)
(* ===================================================================== *)

Module Py.

(** [s.startswith(p)] *)
Definition startswith (s p : string) : bool := String.prefix p s.

(** [s.endswith(p)]: the last [len(p)] characters of [s] are [p]. *)
Definition endswith (s p : string) : bool :=
  let n := String.length s in
  let m := String.length p in
  (m <=? n)%nat && (String.substring (n - m) m s =? p)%string.

(** [sub in s] on strings. *)
Fixpoint contains (sub s : string) : bool :=
  String.prefix sub s ||
  match s with
  | EmptyString => false
  | String _ s' => contains sub s'
  end.

(** [x in l] on lists of strings. *)
Definition mem (x : string) (l : list string) : bool :=
  existsb (String.eqb x) l.

(** Truth value of a [str]. *)
Definition truthy (s : string) : bool := negb (s =? EmptyString)%string.

(** Truth value of an [Optional[str]]: [None] and the empty string are false. *)
Definition otruthy (o : option string) : bool :=
  match o with
  | Some s => truthy s
  | None => false
  end.

Definition is_upper (c : ascii) : bool :=
  let n := nat_of_ascii c in (65 <=? n)%nat && (n <=? 90)%nat.

Definition lower_char (c : ascii) : ascii :=
  if is_upper c then ascii_of_nat (nat_of_ascii c + 32) else c.

(** [s.lower()] *)
Fixpoint lower (s : string) : string :=
  match s with
  | EmptyString => EmptyString
  | String c s' => String (lower_char c) (lower s')
  end.

(** [c.isspace()] for ASCII: TAB, LF, VT, FF, CR, FS, GS, RS, US, SPACE. *)
Definition is_space (c : ascii) : bool :=
  let n := nat_of_ascii c in
  ((9 <=? n)%nat && (n <=? 13)%nat) ||
  ((28 <=? n)%nat && (n <=? 32)%nat).

Fixpoint lstrip (s : string) : string :=
  match s with
  | EmptyString => EmptyString
  | String c s' => if is_space c then lstrip s' else s
  end.

(** [rstrip]: a character is kept when it, or something after it, is
    not white space. *)
Fixpoint rstrip (s : string) : string :=
  match s with
  | EmptyString => EmptyString
  | String c s' =>
      match rstrip s' with
      | EmptyString => if is_space c then EmptyString else String c EmptyString
      | r => String c r
      end
  end.

(** [s.strip()] *)
Definition strip (s : string) : string := rstrip (lstrip s).

(** [s.split()]: maximal runs of non-space characters.  [cur] is the
    word being read, reversed. *)
Fixpoint rev_string (acc s : string) : string :=
  match s with
  | EmptyString => acc
  | String c s' => rev_string (String c acc) s'
  end.

Definition flush (cur : string) : list string :=
  match cur with
  | EmptyString => []
  | _ => [rev_string EmptyString cur]
  end.

Fixpoint split_ws (cur s : string) : list string :=
  match s with
  | EmptyString => flush cur
  | String c s' =>
      if is_space c then (flush cur ++ split_ws EmptyString s')%list
      else split_ws (String c cur) s'
  end.

Definition split (s : string) : list string := split_ws EmptyString s.

(** [s.replace(old, new)] for a non-empty [old]: every occurrence, left
    to right, without overlap.  [skip] counts the characters of an
    occurrence already replaced that are still to be dropped. *)
Fixpoint replace_from (old new : string) (skip : nat) (s : string) : string :=
  match s with
  | EmptyString => EmptyString
  | String c s' =>
      match skip with
      | S k => replace_from old new k s'
      | O =>
          if String.prefix old s
          then new ++ replace_from old new (String.length old - 1) s'
          else String c (replace_from old new 0 s')
      end
  end.

Definition replace (s old new : string) : string := replace_from old new 0 s.

(** [int(s)] for a [str] in base 10: surrounding white space, an optional
    sign, then decimal digits, single underscores allowed between
    digits.  [None] stands for [ValueError]. *)
Definition digit_val (c : ascii) : option Z :=
  let n := nat_of_ascii c in
  if (48 <=? n)%nat && (n <=? 57)%nat then Some (Z.of_nat (n - 48)) else None.

(** [prev_digit] says whether the previous character was a digit, so
    that an underscore is legal here. *)
Fixpoint digits (acc : Z) (prev_digit : bool) (s : string) : option Z :=
  match s with
  | EmptyString => if prev_digit then Some acc else None
  | String c s' =>
      match digit_val c with
      | Some d => digits (10 * acc + d) true s'
      | None =>
          if (c =? "_")%char && prev_digit then
            match s' with
            | EmptyString => None
            | String c' _ =>
                match digit_val c' with
                | Some _ => digits acc false s'
                | None => None
                end
            end
          else None
      end
  end.

Definition int (s : string) : option Z :=
  match strip s with
  | String "-" r => option_map Z.opp (digits 0 false r)
  | String "+" r => digits 0 false r
  | r => digits 0 false r
  end.

(** [l[i]]: a negative index counts from the end; [None] stands for
    [IndexError]. *)
Definition index {A} (l : list A) (i : Z) : option A :=
  let n := Z.of_nat (List.length l) in
  if (0 <=? i)%Z then nth_error l (Z.to_nat i)
  else if (- n <=? i)%Z then nth_error l (Z.to_nat (n + i))
  else None.

(** [os.path.join(a, b)] of [posixpath]. *)
Definition path_join (a b : string) : string :=
  if startswith b "/" then b
  else if (a =? EmptyString)%string || endswith a "/" then a ++ b
  else a ++ "/" ++ b.

(** [os.path.join(a, b, c)] *)
Definition path_join3 (a b c : string) : string :=
  path_join (path_join a b) c.

(** [sep.join(l)] *)
Definition join (sep : string) (l : list string) : string :=
  String.concat sep l.

End Py.

(** [sorted] on a list of strings: the Standard Library's merge sort over
    the byte-wise lexicographic order. *)
Module StringOrder <: Orders.TotalLeBool.
Definition t := string.
Definition leb (x y : string) : bool := String.leb x y.
Theorem leb_total : forall x y, leb x y = true \/ leb y x = true.
Proof. exact String.leb_total. Qed.
End StringOrder.

Module StringSort := Mergesort.Sort StringOrder.

Definition sorted (l : list string) : list string := StringSort.sort l.

(** [str(n)] for an [int]. *)
Definition str_of_Z (z : Z) : string :=
  DecimalString.NilZero.string_of_int (Z.to_int z).

(** [repr] of a list of plain names, as an f-string shows it. *)
Definition repr_list (l : list string) : string :=
  "[" ++ Py.join ", " (map (fun s => "'" ++ s ++ "'") l) ++ "]".

(** [f"{x}"] for an [Optional[str]]. *)
Definition str_of_opt (o : option string) : string :=
  match o with
  | Some s => s
  | None => "None"
  end.

(* ===================================================================== *)
(** ** The machine, the console and the monad *)
(* ===================================================================== *)

(** What a path names on disk.  A file that cannot be read or decoded has
    contents [None]. *)
Inductive Node : Type :=
| Absent
| Dir (entries : list string)
| File (contents : option string).

Record Machine : Type := mkMachine {
  env_PREFIX : string;              (* os.environ.get('PREFIX', '') *)
  fs : string -> Node;
  which : string -> option string;  (* shutil.which *)
  euid : option Z;                  (* os.geteuid(); None where it is absent *)
  clock : string                    (* datetime.now().strftime(...) *)
}.

(** What the program does to the outside: text written to the console
    (prompts included) and child processes it tries to start. *)
Inductive Event : Type :=
| Write (text : string)
| Exec (argv : list string).

Inductive Exn : Type :=
| IndexError
| ValueError
| EOFError
| OSError (msg : string)
| FileNotFoundError (msg : string)
| CalledProcessError (msg : string)
| OtherError (msg : string)
| SystemExit (code : Z).

(** [str(e)] *)
Definition exn_str (e : Exn) : string :=
  match e with
  | IndexError => "list index out of range"
  | ValueError => "invalid literal for int() with base 10"
  | EOFError => "EOF when reading a line"
  | OSError msg | FileNotFoundError msg | CalledProcessError msg | OtherError msg => msg
  | SystemExit code => str_of_Z code
  end.

(** [except Exception] catches all of these but [SystemExit]. *)
Definition is_Exception (e : Exn) : bool :=
  match e with
  | SystemExit _ => false
  | _ => true
  end.

(** How starting a child process ends. *)
Inductive ProcResult : Type :=
| NotFound (msg : string)                 (* FileNotFoundError *)
| Crashed (msg : string)                  (* any other exception *)
| Exited (rc : Z) (out err : string).

Record St : Type := mkSt {
  machine : Machine;
  stdin : list string;      (* the lines the user will still type *)
  trace : list Event        (* oldest first *)
}.

Inductive Res (A : Type) : Type :=
| Ok (a : A)
| Raise (e : Exn).
Arguments Ok {A} a.
Arguments Raise {A} e.

Definition M (A : Type) : Type := St -> Res A * St.

Definition ret {A} (a : A) : M A := fun st => (Ok a, st).

Definition bind {A B} (m : M A) (k : A -> M B) : M B :=
  fun st =>
    match m st with
    | (Ok a, st') => k a st'
    | (Raise e, st') => (Raise e, st')
    end.

Definition raise {A} (e : Exn) : M A := fun st => (Raise e, st).

(** [try: m except <those e with handles e>: handler e] *)
Definition try_except {A} (m : M A) (handles : Exn -> bool) (handler : Exn -> M A) : M A :=
  fun st =>
    match m st with
    | (Raise e, st') => if handles e then handler e st' else (Raise e, st')
    | r => r
    end.

Declare Scope py_scope.
Delimit Scope py_scope with py.
Notation "x <- m ;; k" := (bind m (fun x => k))
  (at level 100, m at next level, right associativity) : py_scope.
Notation "m ;; k" := (bind m (fun _ => k))
  (at level 100, right associativity) : py_scope.
Notation "' pat <- m ;; k" := (bind m (fun x => match x with pat => k end))
  (at level 100, pat pattern, m at next level, right associativity) : py_scope.
Local Open Scope py_scope.

Definition nl : string := String (ascii_of_nat 10) EmptyString.

Definition write (text : string) : M unit :=
  fun st => (Ok tt, mkSt (machine st) (stdin st) (trace st ++ [Write text])%list).

(** [print(s)] *)
Definition print (s : string) : M unit := write (s ++ nl).

(** [print(s, end=e)] *)
Definition print_end (s e : string) : M unit := write (s ++ e).

(** [input(prompt)] *)
Definition input (prompt : string) : M string :=
  fun st =>
    let st' := mkSt (machine st) (stdin st) (trace st ++ [Write prompt])%list in
    match stdin st with
    | [] => (Raise EOFError, st')
    | line :: rest => (Ok line, mkSt (machine st) rest (trace st'))
    end.

Definition get_machine : M Machine := fun st => (Ok (machine st), st).

(** [o] or the exception [e]. *)
Definition or_raise {A} (o : option A) (e : Exn) : M A :=
  match o with
  | Some a => ret a
  | None => raise e
  end.

(** The child processes the trace records. *)
Fixpoint launches (t : list Event) : list (list string) :=
  match t with
  | [] => []
  | Exec argv :: t' => argv :: launches t'
  | Write _ :: t' => launches t'
  end.

(** The console text the trace records. *)
Fixpoint written (t : list Event) : list string :=
  match t with
  | [] => []
  | Write s :: t' => s :: written t'
  | Exec _ :: t' => written t'
  end.

(** ANSI colour codes of [class Colors]. *)
Module Colors.
Definition ESC : string := String (ascii_of_nat 27) EmptyString.
Definition HEADER : string := ESC ++ "[95m".
Definition BLUE : string := ESC ++ "[94m".
Definition CYAN : string := ESC ++ "[96m".
Definition GREEN : string := ESC ++ "[92m".
Definition YELLOW : string := ESC ++ "[93m".
Definition RED : string := ESC ++ "[91m".
Definition ENDC : string := ESC ++ "[0m".
Definition BOLD : string := ESC ++ "[1m".
Definition UNDERLINE : string := ESC ++ "[4m".
End Colors.

Definition REQUIRED : list string := ["nmap"; "ndiff"; "xsltproc"].
Definition SESSIONS_DIR : string := "redeye_sessions".

(* ===================================================================== *)
(** ** The program *)
(* ===================================================================== *)

Section Program.

(** The operating system's side of the two calls whose outcome the program
    cannot know: starting a child process, which may change the machine
    (an installer adds binaries to the search path), and [os.makedirs]
    with [exist_ok=True], which either raises [OSError] or succeeds. *)
Variable os_spawn : list string -> Machine -> ProcResult * Machine.
Variable os_makedirs : string -> Machine -> string + Machine.

Definition spawn (argv : list string) : M ProcResult :=
  fun st =>
    let (r, m') := os_spawn argv (machine st) in
    (Ok r, mkSt m' (stdin st) (trace st ++ [Exec argv])%list).

Definition makedirs (path : string) : M unit :=
  fun st =>
    match os_makedirs path (machine st) with
    | inl msg => (Raise (OSError msg), st)
    | inr m' => (Ok tt, mkSt m' (stdin st) (trace st))
    end.

(** *** Utility functions *)

(** [run_cmd(cmd, capture)], for a [cmd] given as a non-empty list. *)
Definition run_cmd (cmd : list string) (capture : bool) : M (Z * string * string) :=
  r <- spawn cmd ;;
  match r with
  | Exited rc out err =>
      if capture then ret (rc, Py.strip out, Py.strip err)
      else ret (rc, EmptyString, EmptyString)
  | NotFound _ => ret (127%Z, EmptyString, "command not found: " ++ hd EmptyString cmd)
  | Crashed msg => ret (1%Z, EmptyString, msg)
  end.

Definition shutil_which (m : Machine) (name : string) : bool :=
  match which m name with
  | Some _ => true
  | None => false
  end.

Definition is_root (m : Machine) : bool :=
  match euid m with
  | Some u => (u =? 0)%Z
  | None => false
  end.

Definition path_exists (m : Machine) (p : string) : bool :=
  match fs m p with
  | Absent => false
  | _ => true
  end.

Definition isdir (m : Machine) (p : string) : bool :=
  match fs m p with
  | Dir _ => true
  | _ => false
  end.

(** *** Dependency management *)

Definition TERMUX_USR : string := "/data/data/com.termux/files/usr".
Definition DQUOTE : string := String (ascii_of_nat 34) EmptyString.

(** [(os_id, pkg_manager, install_cmd_list, update_cmd_list)] *)
Definition Detected : Type :=
  (string * option string * option (list string) * option (list string))%type.

Definition undetected : Detected := ("unknown", None, None, None).

Definition apt_as (os_id : string) : Detected :=
  (os_id, Some "apt", Some ["apt-get"; "install"; "-y"], Some ["apt-get"; "update"; "-y"]).
Definition pacman_as (os_id : string) : Detected :=
  (os_id, Some "pacman", Some ["pacman"; "-S"; "--noconfirm"], Some ["pacman"; "-Sy"; "--noconfirm"]).
Definition dnf_as (os_id : string) : Detected :=
  (os_id, Some "dnf", Some ["dnf"; "install"; "-y"], Some ["dnf"; "makecache"; "--refresh"; "-y"]).
Definition yum_as (os_id : string) : Detected :=
  (os_id, Some "yum", Some ["yum"; "install"; "-y"], Some ["yum"; "makecache"; "-y"]).
Definition pkg_as (os_id : string) : Detected :=
  (os_id, Some "pkg", Some ["pkg"; "install"; "-y"], Some ["pkg"; "update"; "-y"]).

(** The [/etc/os-release] block of [detect_os].  Opening a directory or an
    unreadable file raises inside the [try], and [except Exception: pass]
    leaves the defaults. *)
Definition detect_os_release (m : Machine) : Detected :=
  match fs m "/etc/os-release" with
  | File (Some raw) =>
      let data := Py.lower raw in
      if Py.contains "ubuntu" data then apt_as "ubuntu"
      else if Py.contains "debian" data && negb (Py.contains "ubuntu" data) then apt_as "debian"
      else if Py.contains "arch" data then pacman_as "arch"
      else if existsb (fun x => Py.contains x data) ["fedora"; "rhel"; "centos"; "red hat"] then
        if shutil_which m "dnf" then dnf_as "redhat" else yum_as "redhat"
      else if Py.contains "id_like=debian" data
              || Py.contains "id_like=debian" (Py.replace data DQUOTE EmptyString)
      then apt_as "debian-like"
      else undetected
  | _ => undetected
  end.

Definition detect_os (m : Machine) : Detected :=
  if Py.startswith (env_PREFIX m) TERMUX_USR || path_exists m TERMUX_USR then
    pkg_as "termux"
  else
    let '(os_id, pkg, install_cmd, update_cmd) := detect_os_release m in
    match pkg with
    | Some _ => (os_id, pkg, install_cmd, update_cmd)
    | None =>
        if shutil_which m "apt-get" then
          apt_as (if negb (os_id =? "unknown") then os_id else "debian-like")
        else if shutil_which m "pacman" then pacman_as "arch"
        else if shutil_which m "dnf" then dnf_as "redhat"
        else if shutil_which m "yum" then yum_as "redhat"
        else if shutil_which m "pkg" then pkg_as "termux"
        else (os_id, pkg, install_cmd, update_cmd)
    end.

(** The loop of [check_tools] over the tools still to look up. *)
Fixpoint check_tools_from (m : Machine) (bs found missing : list string)
  : list string * list string :=
  match bs with
  | [] => (found, missing)
  | b :: bs' =>
      if shutil_which m b
      then check_tools_from m bs' (found ++ [b])%list missing
      else check_tools_from m bs' found (missing ++ [b])%list
  end.

Definition check_tools (m : Machine) : list string * list string :=
  check_tools_from m REQUIRED [] [].

Definition pm_in (pkg_manager : option string) (l : list string) : bool :=
  match pkg_manager with
  | Some p => Py.mem p l
  | None => false
  end.

Definition pkg_name_for_bin (bin_name : string) (pkg_manager : option string) : string :=
  if pm_in pkg_manager ["apt"; "pkg"] then
    if bin_name =? "ndiff" then "nmap" else bin_name
  else if pm_in pkg_manager ["pacman"] then
    if bin_name =? "xsltproc" then "libxslt"
    else if bin_name =? "ndiff" then "nmap"
    else bin_name
  else if pm_in pkg_manager ["dnf"; "yum"] then
    if bin_name =? "xsltproc" then "libxslt"
    else if bin_name =? "ndiff" then "nmap"
    else bin_name
  else bin_name.

(** The order-preserving removal of duplicates in [attempt_install]. *)
Fixpoint dedupe (seen uniq pkg_names : list string) : list string :=
  match pkg_names with
  | [] => uniq
  | p :: rest =>
      if Py.mem p seen then dedupe seen uniq rest
      else dedupe (p :: seen) (uniq ++ [p])%list rest
  end.

Definition list_truthy {A} (o : option (list A)) : bool :=
  match o with
  | Some (_ :: _) => true
  | _ => false
  end.

Definition attempt_install (missing : list string) (pkg_manager : option string)
    (install_cmd update_cmd : option (list string)) : M bool :=
  match pkg_manager, install_cmd with
  | Some _, Some install =>
      (if list_truthy update_cmd then
         let update := match update_cmd with Some u => u | None => [] end in
         print ("[INFO] Running update: " ++ Py.join " " update) ;;
         '(rc, out, err) <- run_cmd update true ;;
         if negb (rc =? 0)%Z then
           print ("[WARN] Update command returned " ++ str_of_Z rc
                  ++ ". stdout: " ++ out ++ " stderr: " ++ err)
         else ret tt
       else ret tt) ;;
      let pkg_names := map (fun b => pkg_name_for_bin b pkg_manager) missing in
      let uniq := dedupe [] [] pkg_names in
      let cmd := (install ++ uniq)%list in
      print ("[INFO] Trying install: " ++ Py.join " " cmd ++ " (without sudo)") ;;
      '(rc, out, err) <- run_cmd cmd true ;;
      (if (rc =? 0)%Z then print "[INFO] Install command finished, re-checking tools..."
       else print ("[WARN] Install without sudo returned " ++ str_of_Z rc
                   ++ ". stderr: " ++ err)) ;;
      m <- get_machine ;;
      match snd (check_tools m) with
      | [] => print "[INFO] All tools installed successfully." ;; ret true
      | _ :: _ =>
          if negb (is_root m) then
            let sudo_cmd := "sudo" :: cmd in
            print ("[INFO] Retrying with sudo: " ++ Py.join " " sudo_cmd) ;;
            '(rc, out, err) <- run_cmd sudo_cmd true ;;
            if (rc =? 0)%Z then
              m' <- get_machine ;;
              match snd (check_tools m') with
              | [] => print "[INFO] All tools installed successfully (with sudo)." ;; ret true
              | still_missing =>
                  print ("[WARN] Still missing after sudo install: " ++ repr_list still_missing) ;;
                  ret false
              end
            else
              print ("[ERROR] sudo install failed with rc=" ++ str_of_Z rc
                     ++ ". stderr: " ++ err) ;;
              ret false
          else
            print "[INFO] Already running as root; attempted install above failed." ;;
            ret false
      end
  | _, _ =>
      print "[ERROR] No supported package manager detected; cannot install automatically." ;;
      ret false
  end.

Definition print_manual_suggestions (pkg_manager : option string) : M unit :=
  print (nl ++ "=== Manual installation suggestions ===") ;;
  (if pm_in pkg_manager ["apt"] then
     print "Debian/Ubuntu (APT):" ;;
     print "  sudo apt-get update" ;;
     print "  sudo apt-get install -y nmap ndiff xsltproc" ;;
     print "  (ndiff usually included with nmap; if not, search 'apt-cache search ndiff')"
   else if pm_in pkg_manager ["pkg"] then
     print "Termux (pkg):" ;;
     print "  pkg update" ;;
     print "  pkg install nmap libxslt" ;;
     print "  (ndiff usually comes with nmap)"
   else if pm_in pkg_manager ["pacman"] then
     print "Arch (pacman):" ;;
     print "  sudo pacman -Sy" ;;
     print "  sudo pacman -S nmap libxslt" ;;
     print "  (ndiff usually part of nmap package)"
   else if pm_in pkg_manager ["dnf"; "yum"] then
     print "Fedora/RHEL (dnf/yum):" ;;
     print ("  sudo " ++ str_of_opt pkg_manager ++ " makecache --refresh") ;;
     print ("  sudo " ++ str_of_opt pkg_manager ++ " install -y nmap libxslt") ;;
     print "  (ndiff usually comes with nmap)"
   else
     print "Unknown package manager. Try installing: nmap, libxslt (xsltproc).") ;;
  print "If you are inside a container or don't have privileges, consider contacting the sysadmin or using a container that has these tools.".

Definition ensure_tools : M bool :=
  print ("[INFO] Checking required tools: " ++ Py.join ", " REQUIRED) ;;
  m <- get_machine ;;
  let '(found, missing) := check_tools m in
  match missing with
  | [] =>
      print ("[INFO] All required tools are present: " ++ Py.join ", " found) ;;
      ret true
  | _ :: _ =>
      print ("[WARN] Missing tools: " ++ Py.join ", " missing) ;;
      let '(os_id, pkg_manager, install_cmd, update_cmd) := detect_os m in
      print ("[INFO] Detected OS: " ++ os_id ++ ", package manager: "
             ++ str_of_opt pkg_manager) ;;
      ok <- attempt_install missing pkg_manager install_cmd update_cmd ;;
      if ok then ret true
      else
        m' <- get_machine ;;
        match snd (check_tools m') with
        | [] => ret true
        | still_missing =>
            print ("[ERROR] Could not install: " ++ Py.join ", " still_missing) ;;
            print_manual_suggestions pkg_manager ;;
            ret false
        end
  end.

(** *** Start-up dependency check of the interactive mode *)

Definition check_tool_installed (tool_name : string) : M bool :=
  print_end (Colors.YELLOW ++ "Checking for " ++ tool_name ++ " installation..."
             ++ Colors.ENDC) " " ;;
  m <- get_machine ;;
  match which m tool_name with
  | Some path =>
      print (Colors.GREEN ++ "Found at " ++ path ++ Colors.ENDC) ;; ret true
  | None =>
      print (Colors.RED ++ "Not found." ++ Colors.ENDC) ;; ret false
  end.

(** [d.get(k)] on a dict literal. *)
Fixpoint dict_get (d : list (string * string)) (k : string) : option string :=
  match d with
  | [] => None
  | (k', v) :: d' => if k =? k' then Some v else dict_get d' k
  end.

(** [subprocess.run(argv, check=True, ...)] *)
Definition run_checked (argv : list string) : M unit :=
  r <- spawn argv ;;
  match r with
  | Exited rc _ _ =>
      if (rc =? 0)%Z then ret tt
      else raise (CalledProcessError
                    ("Command '" ++ repr_list argv
                     ++ "' returned non-zero exit status " ++ str_of_Z rc ++ "."))
  | NotFound msg => raise (FileNotFoundError msg)
  | Crashed msg => raise (OtherError msg)
  end.

Definition APT_PACKAGE_MAP : list (string * string) :=
  [("nmap", "nmap"); ("ndiff", "ndiff"); ("xsltproc", "xsltproc")].
Definition REDHAT_PACKAGE_MAP : list (string * string) :=
  [("nmap", "nmap"); ("ndiff", "ndiff"); ("xsltproc", "libxslt")].

(** The manager, the package and the command lists [install_dependency]
    settles on before it asks the user; [None] on the unsupported branch.
    The install command ends with the package, so it is given as its
    prefix. *)
Definition install_plan (m : Machine) (tool_name : string)
  : option (string * option string * list string * list string) :=
  if shutil_which m "apt-get" then
    Some ("apt-get", dict_get APT_PACKAGE_MAP tool_name,
          ["sudo"; "apt-get"; "update"], ["sudo"; "apt-get"; "install"; "-y"])
  else if shutil_which m "dnf" || shutil_which m "yum" then
    let manager := if shutil_which m "dnf" then "dnf" else "yum" in
    Some (manager, dict_get REDHAT_PACKAGE_MAP tool_name,
          [], ["sudo"; manager; "install"; "-y"])
  else None.

Definition install_dependency (tool_name : string) : M bool :=
  m <- get_machine ;;
  match install_plan m tool_name with
  | None =>
      print (Colors.RED ++ "Unsupported package manager. Please install '" ++ tool_name
             ++ "' manually." ++ Colors.ENDC) ;;
      ret false
  | Some (manager, package, update_cmd, install_prefix) =>
      if negb (Py.otruthy package) then
        print (Colors.RED ++ "Could not determine package for '" ++ tool_name
               ++ "'. Please install manually." ++ Colors.ENDC) ;;
        ret false
      else
        let package_name := str_of_opt package in
        let install_cmd := (install_prefix ++ [package_name])%list in
        answer <- input (Colors.YELLOW ++ "Attempt to install '" ++ package_name
                         ++ "' using " ++ manager ++ "? (y/n): " ++ Colors.ENDC) ;;
        let choice := Py.lower answer in
        if negb (Py.mem choice ["y"; "yes"]) then
          print (Colors.RED ++ "Installation skipped by user." ++ Colors.ENDC) ;;
          ret false
        else
          try_except
            ((match update_cmd with
              | [] => ret tt
              | _ :: _ =>
                  print (nl ++ Colors.CYAN ++ "Running package list update ("
                         ++ Py.join " " update_cmd ++ ")..." ++ Colors.ENDC) ;;
                  run_checked update_cmd
              end) ;;
             print (nl ++ Colors.CYAN ++ "Running installation ("
                    ++ Py.join " " install_cmd ++ ")..." ++ Colors.ENDC) ;;
             run_checked install_cmd ;;
             print (Colors.GREEN ++ nl ++ "Installation of " ++ package_name
                    ++ " appears to be successful." ++ Colors.ENDC) ;;
             ret true)
            (fun e => match e with
                      | CalledProcessError _ | FileNotFoundError _ => true
                      | _ => false
                      end)
            (fun e =>
               print (nl ++ Colors.RED ++ "Installation failed for " ++ package_name
                      ++ "." ++ Colors.ENDC) ;;
               print (Colors.RED ++ "Error: " ++ exn_str e ++ Colors.ENDC) ;;
               print (Colors.YELLOW ++ "Please try installing it manually." ++ Colors.ENDC) ;;
               ret false)
  end.

(** The loop of [setup_environment] over the dependencies still to check. *)
Fixpoint setup_from (dependencies : list string) (all_deps_met : bool) : M bool :=
  match dependencies with
  | [] => ret all_deps_met
  | tool :: rest =>
      present <- check_tool_installed tool ;;
      if present then setup_from rest all_deps_met
      else
        installed <- install_dependency tool ;;
        if negb installed then setup_from rest false
        else
          verified <- check_tool_installed tool ;;
          if negb verified then
            print (Colors.RED ++ "Verification failed for " ++ tool
                   ++ " after installation attempt." ++ Colors.ENDC) ;;
            setup_from rest false
          else setup_from rest all_deps_met
  end.

Definition setup_environment : M unit :=
  print (Colors.BOLD ++ "--- Checking Dependencies ---" ++ Colors.ENDC) ;;
  all_deps_met <- setup_from ["nmap"; "ndiff"; "xsltproc"] true ;;
  if negb all_deps_met then
    print (nl ++ Colors.RED ++ Colors.BOLD
           ++ "One or more dependencies could not be installed. Please install them manually and restart the script."
           ++ Colors.ENDC) ;;
    raise (SystemExit 1)
  else
    print (Colors.GREEN ++ Colors.BOLD ++ "All dependencies are met. Starting RedEye..."
           ++ Colors.ENDC ++ nl).

(** *** Scanning and command execution *)

(** [command[0] == 'nmap' and '-sn' not in command and '-sL' not in command],
    given the first element. *)
Definition is_nmap_scan (c0 : string) (command : list string) : bool :=
  (c0 =? "nmap") && negb (Py.mem "-sn" command) && negb (Py.mem "-sL" command).

Definition base_filename (session timestamp : string) : string :=
  let session_path := Py.path_join SESSIONS_DIR session in
  Py.path_join session_path ("scan_" ++ timestamp).

(** The two [command.extend] calls. *)
Definition extend_outputs (command : list string) (base : string) : list string :=
  ((command ++ ["-oN"; (base ++ ".nmap")%string]) ++ ["-oX"; (base ++ ".xml")%string])%list.

Definition dashes (n : nat) : string := String.concat EmptyString (repeat "-" n).

Definition run_command (command : list string) (session : option string) : M unit :=
  c0 <- or_raise (Py.index command 0) IndexError ;;
  let scan := is_nmap_scan c0 command in
  let saving := Py.otruthy session && scan in
  m <- get_machine ;;
  let base := base_filename (str_of_opt session) (clock m) in
  let command := if saving then extend_outputs command base else command in
  print (nl ++ Colors.CYAN ++ Colors.BOLD ++ "Executing: " ++ Py.join " " command
         ++ Colors.ENDC) ;;
  print (dashes 60) ;;
  r <- spawn command ;;
  match r with
  | Exited _ out _ =>
      write out ;;
      print (nl ++ dashes 60) ;;
      print (Colors.GREEN ++ Colors.BOLD ++ "Command finished." ++ Colors.ENDC) ;;
      if saving then
        print (Colors.GREEN ++ "Results saved in: " ++ base ++ ".nmap/.xml"
               ++ Colors.ENDC ++ nl)
      else ret tt
  | NotFound msg | Crashed msg =>
      print (Colors.RED ++ "An error occurred: " ++ msg ++ Colors.ENDC)
  end.

(** *** Session management *)

Definition set_session : M (option string) :=
  line <- input (Colors.YELLOW ++ "Enter session name (e.g., 'project_x'): "
                 ++ Colors.ENDC) ;;
  let session_name := Py.strip line in
  if negb (Py.truthy session_name) then
    print (Colors.RED ++ "Session name cannot be empty." ++ Colors.ENDC) ;;
    ret None
  else
    let session_path := Py.path_join SESSIONS_DIR session_name in
    try_except
      (makedirs session_path ;;
       print (Colors.GREEN ++ "Session '" ++ session_name
              ++ "' is active. Scans will be saved to '" ++ session_path ++ "'."
              ++ Colors.ENDC) ;;
       ret (Some session_name))
      (fun e => match e with OSError _ | FileNotFoundError _ => true | _ => false end)
      (fun e =>
         print (Colors.RED ++ "Failed to create session directory: " ++ exn_str e
                ++ Colors.ENDC) ;;
         ret None).

(** The numbered listing, [i] files having been printed already. *)
Fixpoint print_numbered (i : nat) (files : list string) : M unit :=
  match files with
  | [] => ret tt
  | f :: rest =>
      print ("  " ++ str_of_Z (Z.of_nat i + 1) ++ ". " ++ f) ;;
      print_numbered (S i) rest
  end.

Definition list_files_in_session (session extension : string) : M (list string) :=
  m <- get_machine ;;
  let session_path := Py.path_join SESSIONS_DIR session in
  match fs m session_path with
  | Dir entries =>
      let files := sorted (filter (fun f => Py.endswith f extension) entries) in
      match files with
      | [] =>
          print (Colors.YELLOW ++ "No '" ++ extension ++ "' files found in session '"
                 ++ session ++ "'." ++ Colors.ENDC) ;;
          ret []
      | _ :: _ =>
          print (nl ++ Colors.HEADER ++ "Available '" ++ extension ++ "' files in '"
                 ++ session ++ "':" ++ Colors.ENDC) ;;
          print_numbered 0 files ;;
          ret files
      end
  | _ =>
      print (Colors.RED ++ "Session directory not found." ++ Colors.ENDC) ;;
      ret []
  end.

(** *** Reporting and analysis *)

Definition INVALID_SELECTION : string :=
  Colors.RED ++ "Invalid selection." ++ Colors.ENDC.

(** [except (ValueError, IndexError)] *)
Definition value_or_index (e : Exn) : bool :=
  match e with
  | ValueError | IndexError => true
  | _ => false
  end.

(** [int(input(prompt)) - 1] *)
Definition input_choice (prompt : string) : M Z :=
  line <- input prompt ;;
  n <- or_raise (Py.int line) ValueError ;;
  ret (n - 1)%Z.

Definition compare_scans (session : option string) : M unit :=
  if negb (Py.otruthy session) then
    print (nl ++ Colors.RED ++ "Please set a session first (Option 8)." ++ Colors.ENDC)
  else
    let session := str_of_opt session in
    xml_files <- list_files_in_session session ".xml" ;;
    if (List.length xml_files <? 2)%nat then
      print (Colors.YELLOW ++ "You need at least two XML scans in this session to compare."
             ++ Colors.ENDC)
    else
      try_except
        (choice1 <- input_choice (Colors.BOLD ++ "Select the first file (number): "
                                  ++ Colors.ENDC) ;;
         choice2 <- input_choice (Colors.BOLD ++ "Select the second file (number): "
                                  ++ Colors.ENDC) ;;
         file1 <- or_raise (Py.index xml_files choice1) IndexError ;;
         let file1_path := Py.path_join3 SESSIONS_DIR session file1 in
         file2 <- or_raise (Py.index xml_files choice2) IndexError ;;
         let file2_path := Py.path_join3 SESSIONS_DIR session file2 in
         run_command ["ndiff"; file1_path; file2_path] None)
        value_or_index
        (fun _ => print INVALID_SELECTION).

Definition generate_report (session : option string) : M unit :=
  if negb (Py.otruthy session) then
    print (nl ++ Colors.RED ++ "Please set a session first (Option 8)." ++ Colors.ENDC)
  else
    let session := str_of_opt session in
    xml_files <- list_files_in_session session ".xml" ;;
    match xml_files with
    | [] => ret tt
    | _ :: _ =>
        try_except
          (choice <- input_choice (Colors.BOLD
                                   ++ "Select the XML file to generate a report from: "
                                   ++ Colors.ENDC) ;;
           xml_file <- or_raise (Py.index xml_files choice) IndexError ;;
           let xml_path := Py.path_join3 SESSIONS_DIR session xml_file in
           let html_path := Py.replace xml_path ".xml" ".html" in
           let command := ["xsltproc"; "-o"; html_path; xml_path] in
           print (nl ++ Colors.CYAN ++ Colors.BOLD ++ "Generating HTML report..."
                  ++ Colors.ENDC) ;;
           r <- spawn command ;;
           match r with
           | Exited rc _ err =>
               if (rc =? 0)%Z then
                 print (Colors.GREEN ++ Colors.BOLD ++ "Successfully generated HTML report:"
                        ++ Colors.ENDC ++ " " ++ html_path)
               else
                 print (Colors.RED ++ "Error generating report:" ++ Colors.ENDC) ;;
                 print err ;;
                 print (Colors.YELLOW
                        ++ "Hint: Make sure 'xsltproc' is installed and Nmap's XSL file is in its search path."
                        ++ Colors.ENDC)
           | NotFound msg => raise (FileNotFoundError msg)
           | Crashed msg => raise (OtherError msg)
           end)
          value_or_index
          (fun _ => print INVALID_SELECTION)
    end.

(** *** Menus *)

(** A run of [print] calls on constant lines. *)
Fixpoint print_all (lines : list string) : M unit :=
  match lines with
  | [] => ret tt
  | l :: rest => print l ;; print_all rest
  end.

Definition equals (n : nat) : string := String.concat EmptyString (repeat "=" n).

Definition helper_topic (title : string) (flags : list (string * string)) : M unit :=
  print (Colors.BLUE ++ Colors.BOLD ++ title ++ Colors.ENDC) ;;
  print_all (map (fun '(flag, text) => Colors.CYAN ++ flag ++ Colors.ENDC ++ text) flags).

(** One turn of the loop of [show_helper]; [true] when it breaks. *)
Definition show_helper_turn : M bool :=
  print (nl ++ Colors.HEADER ++ Colors.BOLD ++ "--- Nmap Command Helper ---" ++ Colors.ENDC) ;;
  print_all ["1. Host Discovery"; "2. Scan Techniques"; "3. Port Specification";
             "4. Service & OS Detection"; "5. Nmap Scripting Engine (NSE)";
             "6. Timing and Performance"; "7. Output Formats"; "0. Back to Main Menu";
             dashes 34] ;;
  choice <- input (Colors.BOLD ++ "Select a category to learn more: " ++ Colors.ENDC) ;;
  print (nl ++ equals 60) ;;
  if choice =? "0" then ret true
  else
    (if choice =? "1" then
       helper_topic "Host Discovery:"
         [("-sn / -sP", " : Ping Scan. Disables port scanning. Best for just discovering which hosts are online.");
          ("-sL", "      : List Scan. Simply lists targets without scanning them. Good for a quick target overview.");
          ("-Pn", "      : No Ping. Skips host discovery. Assumes all targets are online. Use if hosts block pings.")]
     else if choice =? "2" then
       helper_topic "Scan Techniques:"
         [("-sS", " : TCP SYN (Stealth) Scan. Fast, stealthy, and the most popular scan type. Requires root.");
          ("-sT", " : TCP Connect Scan. Slower and more detectable than SYN, but doesn't require root.");
          ("-sU", " : UDP Scan. Scans for open UDP ports. Very slow. Requires root.")]
     else if choice =? "3" then
       helper_topic "Port Specification:"
         [("-p <range>", " : Scan specific ports. Examples: -p 22, -p 1-1023, -p U:53,T:21-25,80.");
          ("-F", "         : Fast Scan. Scans the 100 most common ports.")]
     else if choice =? "4" then
       helper_topic "Service & OS Detection:"
         [("-sV", " : Service/Version Detection. Probes open ports to find out the exact service and version running.");
          ("-O", "  : OS Detection. Tries to determine the target's operating system. Requires root.");
          ("-A", "  : Aggressive Scan. A shortcut for -O -sV -sC --traceroute.")]
     else if choice =? "5" then
       helper_topic "Nmap Scripting Engine (NSE):"
         [("-sC", " : Default Scripts. Runs the default set of scripts. It's considered safe for the target.");
          ("--script <name>", " : Runs specific scripts, categories (e.g., 'vuln'), or all scripts.")]
     else if choice =? "6" then
       helper_topic "Timing and Performance:"
         [("-T<0-5>", " : Timing Template. T0 (paranoid) is very slow, T5 (insane) is very fast. T4 is recommended.")]
     else if choice =? "7" then
       helper_topic "Output Formats:"
         [("-oN <file>", " : Normal Output. Saves the output in a standard text file.");
          ("-oX <file>", " : XML Output. Saves in XML format, which can be parsed by other tools.")]
     else
       print (Colors.RED ++ "Invalid choice. Please select from the menu." ++ Colors.ENDC)) ;;
    print (equals 60 ++ nl) ;;
    ret false.

(** [while True] around a turn that reads a line first: a turn on an empty
    input queue raises [EOFError], so one more turn than there are lines
    is enough for every run. *)
Fixpoint loop_until (turn : M bool) (fuel : nat) : M unit :=
  match fuel with
  | O => ret tt
  | S fuel' =>
      stop <- turn ;;
      if stop then ret tt else loop_until turn fuel'
  end.

Definition while_reading (turn : M bool) : M unit :=
  fun st => loop_until turn (S (List.length (stdin st))) st.

Definition show_helper : M unit := while_reading show_helper_turn.

(** *** Advanced scans *)

(** [['-p', ports] if ports else []] *)
Definition port_args (ports : option string) : list string :=
  if Py.otruthy ports then ["-p"; str_of_opt ports] else [].

(** [port_args if ports else default] *)
Definition ports_or (ports : option string) (default : list string) : list string :=
  if Py.otruthy ports then port_args ports else default.

Definition ADVANCED_MENU : list string :=
  [Colors.YELLOW ++ "--- Firewall/IDS Evasion & Discovery ---" ++ Colors.ENDC;
   "1.  Aggressive Discovery (All Ping Types)";
   "2.  Full Port Scan (No Ping)";
   "3.  Firewall Evasion (Fragment Packets)";
   "4.  Firewall Evasion (Decoy Scan)";
   "5.  Idle Scan (Ultimate Stealth - requires zombie host)";
   Colors.YELLOW ++ "--- Vulnerability & Service Specific Scans ---" ++ Colors.ENDC;
   "6.  Comprehensive Web Server Scan";
   "7.  SMB Vulnerability Scan (e.g., EternalBlue)";
   "8.  FTP Vulnerability Scan";
   "9.  MySQL Vulnerability Scan";
   "10. Heartbleed SSL Vulnerability Check";
   "11. Detect Web Application Firewall (WAF)";
   "12. Slowloris DoS Vulnerability Check";
   Colors.YELLOW ++ "--- Deep & Aggressive Scans ---" ++ Colors.ENDC;
   "13. Full TCP & UDP Scan (Extremely Slow)";
   "14. Safe Script Scan (Non-intrusive)";
   Colors.RED ++ "15. Exploit Script Scan (Potentially Dangerous)" ++ Colors.ENDC;
   "16. Brute Force Scripts (Auth Category)";
   "17. Traceroute & Geo-location";
   "18. Aggressive All Ports Scan (-A -p-)";
   "19. Full Network Sweep (Ping Only)";
   "20. Scan for ALL TCP ports with OS detection";
   "0.  Back to Main Menu";
   dashes 50].

(** The [if]/[elif] chain of [show_advanced_scans]: the [command_list] a
    choice builds, [None] when it builds none.  Choice ['0'] is taken
    before this chain is reached. *)
Definition advanced_command (choice target : string) (ports : option string)
  : M (option (list string)) :=
  let port_args := port_args ports in
  if choice =? "1" then
    ret (Some ["sudo"; "nmap"; "-sn"; "-PE"; "-PS22,80,443"; "-PA80,443"; "-PU53"; "-T4"; target])
  else if choice =? "2" then
    ret (Some (["sudo"; "nmap"; "-Pn"; "-sS"; "-T4"] ++ ports_or ports ["-p-"] ++ [target])%list)
  else if choice =? "3" then
    ret (Some (["sudo"; "nmap"; "-f"; "-sS"; "-T4"] ++ port_args ++ [target])%list)
  else if choice =? "4" then
    ret (Some (["sudo"; "nmap"; "-D"; "RND:10"; "-sS"; "-T4"] ++ port_args ++ [target])%list)
  else if choice =? "5" then
    zombie <- input (Colors.YELLOW ++ "Enter Zombie IP for Idle Scan: " ++ Colors.ENDC) ;;
    if Py.truthy zombie
    then ret (Some (["sudo"; "nmap"; "-Pn"; "-sI"; zombie] ++ port_args ++ [target])%list)
    else ret None
  else if choice =? "6" then
    ret (Some (["nmap"; "--script"; "http-enum,http-title,http-vuln*"; "-sV"; "-T4"]
               ++ ports_or ports ["-p"; "80,443"] ++ [target])%list)
  else if choice =? "7" then
    ret (Some (["nmap"; "--script"; "smb-vuln*"; "-sV"; "-T4"]
               ++ ports_or ports ["-p"; "139,445"] ++ [target])%list)
  else if choice =? "8" then
    ret (Some (["nmap"; "--script"; "ftp-anon,ftp-vuln*"; "-sV"; "-T4"]
               ++ ports_or ports ["-p"; "21"] ++ [target])%list)
  else if choice =? "9" then
    ret (Some (["nmap"; "--script"; "mysql-empty-password,mysql-vuln*"; "-sV"; "-T4"]
               ++ ports_or ports ["-p"; "3306"] ++ [target])%list)
  else if choice =? "10" then
    ret (Some (["nmap"; "--script"; "ssl-heartbleed"; "-sV"]
               ++ ports_or ports ["-p"; "443"] ++ [target])%list)
  else if choice =? "11" then
    ret (Some (["nmap"; "--script"; "http-waf-detect,http-waf-fingerprint"; "-T4"]
               ++ ports_or ports ["-p"; "80,443"] ++ [target])%list)
  else if choice =? "12" then
    ret (Some (["nmap"; "--script"; "http-slowloris-check"; "-T4"] ++ port_args ++ [target])%list)
  else if choice =? "13" then
    print (Colors.RED ++ Colors.BOLD
           ++ "WARNING: This scan is extremely slow and can take many hours." ++ Colors.ENDC) ;;
    ret (Some (["sudo"; "nmap"; "-sS"; "-sU"; "-T4"]
               ++ ports_or ports ["-p"; "T:-,U:1-4000"] ++ [target])%list)
  else if choice =? "14" then
    ret (Some (["nmap"; "-sV"; "-sC"; "--script"; (DQUOTE ++ "not intrusive" ++ DQUOTE)%string]
               ++ port_args ++ [target])%list)
  else if choice =? "15" then
    print (Colors.RED ++ Colors.BOLD
           ++ "WARNING: Running 'exploit' scripts is dangerous and may crash the target."
           ++ Colors.ENDC) ;;
    answer <- input "Are you sure you want to continue? (yes/no): " ;;
    if Py.lower answer =? "yes"
    then ret (Some (["sudo"; "nmap"; "-sV"; "--script"; "exploit"; "-T4"]
                    ++ port_args ++ [target])%list)
    else ret None
  else if choice =? "16" then
    ret (Some (["nmap"; "-sV"; "--script"; "auth"; "-T4"] ++ port_args ++ [target])%list)
  else if choice =? "17" then
    ret (Some (["nmap"; "--traceroute"; "--script"; "traceroute-geolocation"; "-T4"]
               ++ ports_or ports ["-p"; "80"] ++ [target])%list)
  else if choice =? "18" then
    print (Colors.RED ++ Colors.BOLD ++ "WARNING: This is a very noisy and slow scan."
           ++ Colors.ENDC) ;;
    ret (Some (["sudo"; "nmap"; "-A"; "-p-"; "-T4"] ++ port_args ++ [target])%list)
  else if choice =? "19" then
    ret (Some ["nmap"; "-sn"; "-T4"; target])
  else if choice =? "20" then
    ret (Some (["sudo"; "nmap"; "-O"; "-T4"] ++ ports_or ports ["-p-"] ++ [target])%list)
  else
    print (Colors.RED ++ "Invalid choice." ++ Colors.ENDC) ;;
    ret None.

(** One turn of the loop of [show_advanced_scans]; [true] when it breaks. *)
Definition show_advanced_scans_turn (target : string) (ports session : option string)
  : M bool :=
  print (nl ++ Colors.HEADER ++ Colors.BOLD ++ "--- Advanced Scans Menu (Target: "
         ++ target ++ ") ---" ++ Colors.ENDC) ;;
  (if Py.otruthy ports then
     print (Colors.GREEN ++ Colors.BOLD ++ "Using Custom Ports: " ++ str_of_opt ports
            ++ Colors.ENDC)
   else ret tt) ;;
  print_all ADVANCED_MENU ;;
  choice <- input (Colors.BOLD ++ "Select an advanced scan: " ++ Colors.ENDC) ;;
  if choice =? "0" then ret true
  else
    command_list <- advanced_command choice target ports ;;
    match command_list with
    | Some (c :: cs) => run_command (c :: cs) session ;; ret false
    | _ => ret false
    end.

Definition show_advanced_scans (target : string) (ports session : option string) : M unit :=
  while_reading (show_advanced_scans_turn target ports session).

(** *** Main menu and loop *)

Definition show_menu (target ports session : option string) : M unit :=
  print (nl ++ Colors.HEADER ++ Colors.BOLD ++ "--- RedEye Nmap Scanner Menu ---"
         ++ Colors.ENDC) ;;
  (if Py.otruthy session then
     print (Colors.CYAN ++ Colors.BOLD ++ "Active Session: " ++ str_of_opt session
            ++ Colors.ENDC)
   else
     print (Colors.YELLOW ++ Colors.BOLD ++ "No Active Session (scans will not be saved)"
            ++ Colors.ENDC)) ;;
  (if Py.otruthy target then
     print (Colors.GREEN ++ Colors.BOLD ++ "Current Target: " ++ str_of_opt target
            ++ Colors.ENDC)
   else print (Colors.YELLOW ++ Colors.BOLD ++ "No Target Set" ++ Colors.ENDC)) ;;
  (if Py.otruthy ports then
     print (Colors.GREEN ++ Colors.BOLD ++ "Custom Ports: " ++ str_of_opt ports
            ++ Colors.ENDC)
   else print (Colors.YELLOW ++ Colors.BOLD ++ "Ports: Default" ++ Colors.ENDC)) ;;
  print_all
    [dashes 34;
     "--- Target & Port Management ---";
     "1.  Set / Change Target";
     "2.  Set / Unset Custom Ports (Optional)";
     nl ++ "--- Basic Scans ---";
     "3.  Ping Scan (Host Discovery only)";
     "4.  Intense Scan (-A -T4)";
     "5.  Fast Scan (Top 100 ports)";
     "6.  Default Scripts Scan (-sC)";
     "7.  Vulnerability Scan (General 'vuln' scripts)";
     nl ++ "--- Session, Reporting & Advanced ---";
     Colors.CYAN ++ "8.  Set / Create Scan Session" ++ Colors.ENDC;
     Colors.CYAN ++ "9.  Compare Two Scans (Diff)" ++ Colors.ENDC;
     Colors.CYAN ++ "10. Generate HTML Report" ++ Colors.ENDC;
     Colors.CYAN ++ "11. Advanced Scans Menu" ++ Colors.ENDC;
     nl ++ "--- Other Options ---";
     "12. Custom Nmap Command";
     Colors.GREEN ++ "13. Nmap Command Helper" ++ Colors.ENDC;
     "0.  Exit";
     dashes 34].

(** The three variables local to [main]. *)
Record AppState : Type := mkApp {
  current_target : option string;
  current_ports : option string;
  current_session : option string
}.

(** How a turn of the main loop ends: with the variables as they now are,
    or at [break]. *)
Inductive Ctl : Type :=
| Continue (s : AppState)
| Break.

(** The body of the [try] in the main loop. *)
Definition main_body (s : AppState) : M Ctl :=
  let current_target := current_target s in
  let current_ports := current_ports s in
  let current_session := current_session s in
  show_menu current_target current_ports current_session ;;
  line <- input (Colors.BOLD ++ "Enter your choice: " ++ Colors.ENDC ++ " ") ;;
  let choice := Py.strip line in
  let scan_choices := ["3"; "4"; "5"; "6"; "7"; "11"] in
  let target := str_of_opt current_target in
  let port_args := port_args current_ports in
  if choice =? "1" then
    line <- input (Colors.YELLOW ++ "Enter target IP or domain: " ++ Colors.ENDC) ;;
    let new_target := Py.strip line in
    if negb (Py.truthy new_target) then
      print (Colors.RED ++ "Target cannot be empty." ++ Colors.ENDC) ;;
      ret (Continue (mkApp None current_ports current_session))
    else ret (Continue (mkApp (Some new_target) current_ports current_session))
  else if choice =? "2" then
    line <- input (Colors.YELLOW ++ "Enter custom ports (or blank to clear): "
                   ++ Colors.ENDC) ;;
    let ports_in := Py.strip line in
    ret (Continue (mkApp current_target
                         (if Py.truthy ports_in then Some ports_in else None)
                         current_session))
  else if choice =? "8" then
    new_session <- set_session ;;
    ret (Continue (mkApp current_target current_ports new_session))
  else if Py.mem choice scan_choices && negb (Py.otruthy current_target) then
    print (nl ++ Colors.RED ++ Colors.BOLD
           ++ "No target has been set. Please use option '1' first." ++ Colors.ENDC) ;;
    ret (Continue s)
  else if choice =? "3" then
    run_command ["nmap"; "-sn"; target] current_session ;; ret (Continue s)
  else if choice =? "4" then
    run_command (["nmap"; "-A"; "-T4"] ++ port_args ++ [target])%list current_session ;;
    ret (Continue s)
  else if choice =? "5" then
    run_command (["nmap"; "-F"; "-T4"] ++ port_args ++ [target])%list current_session ;;
    ret (Continue s)
  else if choice =? "6" then
    run_command (["nmap"; "-sC"] ++ port_args ++ [target])%list current_session ;;
    ret (Continue s)
  else if choice =? "7" then
    run_command (["nmap"; "--script"; "vuln"; "-sV"] ++ port_args ++ [target])%list
                current_session ;;
    ret (Continue s)
  else if choice =? "9" then
    compare_scans current_session ;; ret (Continue s)
  else if choice =? "10" then
    generate_report current_session ;; ret (Continue s)
  else if choice =? "11" then
    show_advanced_scans target current_ports current_session ;; ret (Continue s)
  else if choice =? "12" then
    custom_cmd_str <- input (Colors.YELLOW ++ "Enter full nmap command: " ++ Colors.ENDC) ;;
    (if Py.startswith (Py.strip (Py.lower custom_cmd_str)) "nmap " then
       run_command (Py.split custom_cmd_str) current_session
     else
       print (Colors.RED ++ "Invalid command. It must start with 'nmap '." ++ Colors.ENDC)) ;;
    ret (Continue s)
  else if choice =? "13" then
    show_helper ;; ret (Continue s)
  else if choice =? "0" then
    print (Colors.GREEN ++ "Exiting RedEye. Goodbye!" ++ Colors.ENDC) ;;
    ret Break
  else
    print (Colors.RED ++ "Invalid choice. Please try again." ++ Colors.ENDC) ;;
    ret (Continue s).

(** One turn of the main loop: the body under [except Exception].  No
    variable is assigned before a call that can raise, so an exception
    leaves the three variables as they were. *)
Definition main_step (s : AppState) : M Ctl :=
  try_except (main_body s) is_Exception
    (fun e =>
       print (Colors.RED ++ "An unexpected error occurred: " ++ exn_str e ++ Colors.ENDC) ;;
       ret (Continue s)).

(** [fuel] turns of the main loop from the variables [s]: [None] when the
    loop has left through [break], the variables otherwise. *)
Fixpoint main_loop (fuel : nat) (s : AppState) : M (option AppState) :=
  match fuel with
  | O => ret (Some s)
  | S fuel' =>
      c <- main_step s ;;
      match c with
      | Break => ret None
      | Continue s' => main_loop fuel' s'
      end
  end.

Definition initial_state : AppState := mkApp None None None.

(** *** Banner, start-up and entry point *)

Definition LOGO : string :=
  nl
  ++ "░▒▓███████▓▒░░▒▓████████▓▒░▒▓███████▓▒░░▒▓████████▓▒░▒▓█▓▒░░▒▓█▓▒░▒▓████████▓▒░" ++ nl
  ++ "░▒▓█▓▒░░▒▓█▓▒░▒▓█▓▒░     ░▒▓█▓▒░░▒▓█▓▒░▒▓█▓▒░     ░▒▓█▓▒░░▒▓█▓▒░▒▓█▓▒░" ++ nl
  ++ "░▒▓█▓▒░░▒▓█▓▒░▒▓█▓▒░     ░▒▓█▓▒░░▒▓█▓▒░▒▓█▓▒░     ░▒▓█▓▒░░▒▓█▓▒░▒▓█▓▒░" ++ nl
  ++ "░▒▓███████▓▒░░▒▓██████▓▒░ ░▒▓█▓▒░░▒▓█▓▒░▒▓██████▓▒░  ░▒▓██████▓▒░░▒▓██████▓▒░" ++ nl
  ++ "░▒▓█▓▒░░▒▓█▓▒░▒▓█▓▒░     ░▒▓█▓▒░░▒▓█▓▒░▒▓█▓▒░         ░▒▓█▓▒░   ░▒▓█▓▒░" ++ nl
  ++ "░▒▓█▓▒░░▒▓█▓▒░▒▓█▓▒░     ░▒▓█▓▒░░▒▓█▓▒░▒▓█▓▒░         ░▒▓█▓▒░   ░▒▓█▓▒░" ++ nl
  ++ "░▒▓█▓▒░░▒▓█▓▒░▒▓████████▓▒░▒▓███████▓▒░░▒▓████████▓▒░  ░▒▓█▓▒░   ░▒▓████████▓▒░" ++ nl.

Definition show_banner : M unit :=
  print (Colors.RED ++ LOGO ++ Colors.ENDC) ;;
  print (Colors.BOLD
         ++ "            Welcome to the RedEye Nmap Scanner - Professional Edition"
         ++ Colors.ENDC ++ nl).

(** [os.system(command)]: the command goes to the shell; the status it
    returns is not looked at, and a failure to run it does not raise. *)
Definition os_system (command : string) : M unit :=
  _ <- spawn ["/bin/sh"; "-c"; command] ;;
  ret tt.

(** [main], on a system that is not Windows, with [fuel] turns of its
    loop; the result is that of [main_loop]. *)
Definition main (fuel : nat) : M (option AppState) :=
  os_system "clear" ;;
  show_banner ;;
  setup_environment ;;
  makedirs SESSIONS_DIR ;;
  main_loop fuel initial_state.

(** The block under [if __name__ == '__main__'], [argv] being
    [sys.argv]; [sys.exit] raises [SystemExit]. *)
Definition entry (argv : list string) (fuel : nat) : M unit :=
  if (1 <? List.length argv)%nat && (nth 1 argv EmptyString =? "--test-deps") then
    success <- ensure_tools ;;
    raise (SystemExit (if success then 0 else 2)%Z)
  else
    _ <- main fuel ;;
    ret tt.

End Program.

(* ===================================================================== *)
(** ** Vocabulary of the properties, and scenarios *)
(* ===================================================================== *)

(** From [st], the computation [m] returns [a] having only written to the
    console: no exception, no child process, the machine and the input
    queue untouched. *)
Definition narrates_at {A} (st : St) (m : M A) (a : A) : Prop :=
  exists tr,
    m st = (Ok a, mkSt (machine st) (stdin st) (trace st ++ tr)%list)
    /\ launches tr = [].

(** From [st], the computation [m] returns normally, with a value and a
    final state that satisfy [Q]. *)
Definition returns {A} (m : M A) (st : St) (Q : A -> St -> Prop) : Prop :=
  exists a st', m st = (Ok a, st') /\ Q a st'.

(** [st'] comes after [st] with the input queue untouched and exactly the
    child processes [argvs] started in between. *)
Definition after (st : St) (argvs : list (list string)) (st' : St) : Prop :=
  stdin st' = stdin st
  /\ launches (trace st') = (launches (trace st) ++ argvs)%list.

(** The flags of the basic port scans of the main menu, by choice. *)
Definition basic_flags (choice : string) : option (list string) :=
  if choice =? "4" then Some ["-A"; "-T4"]
  else if choice =? "5" then Some ["-F"; "-T4"]
  else if choice =? "6" then Some ["-sC"]
  else if choice =? "7" then Some ["--script"; "vuln"; "-sV"]
  else None.

(** The line [list_files_in_session] prints for the file numbered [n]. *)
Definition numbered_line (n : Z) (f : string) : string :=
  "  " ++ str_of_Z n ++ ". " ++ f ++ nl.


(** A variable of the main loop is never set to the empty string. *)
Definition set_nonempty (o : option string) : Prop :=
  forall v, o = Some v -> Py.truthy v = true.

Definition wf_state (s : AppState) : Prop :=
  set_nonempty (current_target s)
  /\ set_nonempty (current_ports s)
  /\ set_nonempty (current_session s).

(** A turn that, when it returns, has taken at least one line from the
    input queue. *)
Definition consumes (turn : M bool) : Prop :=
  forall st r st',
    turn st = (Ok r, st') -> (List.length (stdin st') < List.length (stdin st))%nat.

(** The value [list_files_in_session] returns on machine [m]. *)
Definition session_files (m : Machine) (session extension : string) : list string :=
  match fs m (Py.path_join SESSIONS_DIR session) with
  | Dir entries => sorted (filter (fun f => Py.endswith f extension) entries)
  | _ => []
  end.

(** The Termux marker, as [detect_os] tests it. *)
Definition termux_marker (m : Machine) : bool :=
  Py.startswith (env_PREFIX m) TERMUX_USR || path_exists m TERMUX_USR.

(** The base path the specification words describe:
    [<sessions-root>/<session>/scan_<timestamp>]. *)
Definition spec_base_filename (session timestamp : string) : string :=
  SESSIONS_DIR ++ "/" ++ session ++ "/scan_" ++ timestamp.

(** The choices of the advanced menu whose vector starts with [sudo]. *)
Definition SUDO_CHOICES : list string :=
  ["1"; "2"; "3"; "4"; "5"; "13"; "15"; "18"; "20"].

(** A child process that exits with status 0 and changes nothing. *)
Definition quiet_spawn (argv : list string) (m : Machine) : ProcResult * Machine :=
  (Exited 0 EmptyString EmptyString, m).

Definition ok_makedirs (path : string) (m : Machine) : string + Machine := inr m.

Definition denied_makedirs (path : string) (m : Machine) : string + Machine :=
  inl "[Errno 13] Permission denied".

(** A file system given by the paths it holds. *)
Fixpoint on_disk (nodes : list (string * Node)) (p : string) : Node :=
  match nodes with
  | [] => Absent
  | (q, n) :: rest => if p =? q then n else on_disk rest p
  end.

(** A search path given by the names it resolves. *)
Definition on_path (names : list string) (name : string) : option string :=
  if Py.mem name names then Some ("/usr/bin/" ++ name) else None.

Definition box (nodes : list (string * Node)) (names : list string) : Machine :=
  mkMachine EmptyString (on_disk nodes) (on_path names) (Some 1000%Z)
            "2025-01-01_12-00-00".

Definition typing (m : Machine) (lines : list string) : St := mkSt m lines [].

(** A machine with the three tools and one session, [web], holding the
    given directory entries. *)
Definition web_box (entries : list string) : Machine :=
  box [("redeye_sessions/web", Dir entries)] REQUIRED.

(** A machine run by root, with [apt-get] and no tool. *)
Definition root_box : Machine :=
  mkMachine EmptyString (on_disk []) (on_path ["apt-get"]) (Some 0%Z)
            "2025-01-01_12-00-00".

(** An Ubuntu machine: its descriptor file names the distribution; no
    Termux marker. *)
Definition ubuntu_box : Machine :=
  box [("/etc/os-release", File (Some ("NAME=Ubuntu" ++ nl ++ "ID=ubuntu" ++ nl)))]
      ["apt-get"].

(** A session whose name ends in [.xml], holding one scan. *)
Definition dotted_box : Machine :=
  box [("redeye_sessions/v1.xml", Dir ["scan_2025-01-01_12-00-00.xml"])] REQUIRED.

(* ===================================================================== *)
(** ** Properties *)
(* ===================================================================== *)

(** *** The built-ins on small inputs *)

Example endswith_xml : Py.endswith "scan_1.xml" ".xml" = true.
Proof. reflexivity. Qed.

Example endswith_short : Py.endswith "ml" ".xml" = false.
Proof. reflexivity. Qed.

Example contains_ubuntu : Py.contains "ubuntu" (Py.lower "NAME=Ubuntu") = true.
Proof. reflexivity. Qed.

Example strip_both : Py.strip "  a b  " = "a b".
Proof. reflexivity. Qed.

Example split_words : Py.split " nmap  -sC 10.0.0.5 " = ["nmap"; "-sC"; "10.0.0.5"].
Proof. reflexivity. Qed.

Example replace_all : Py.replace "a.xml/b.xml" ".xml" ".html" = "a.html/b.html".
Proof. reflexivity. Qed.

Example int_minus : Py.int " -12 " = Some (-12)%Z.
Proof. reflexivity. Qed.

Example int_underscore : Py.int "1_0" = Some 10%Z.
Proof. reflexivity. Qed.

Example int_bad : Py.int "1__0" = None /\ Py.int "x" = None /\ Py.int EmptyString = None /\ Py.int "_1" = None.
Proof. repeat split; reflexivity. Qed.

Example index_last : Py.index ["a"; "b"] (-1) = Some "b".
Proof. reflexivity. Qed.

Example index_out : Py.index ["a"; "b"] 2 = None /\ Py.index ["a"; "b"] (-3) = None.
Proof. split; reflexivity. Qed.

Example join_abs : Py.path_join "redeye_sessions" "/tmp" = "/tmp".
Proof. reflexivity. Qed.

Example join_rel : Py.path_join3 "redeye_sessions" "s" "a.xml" = "redeye_sessions/s/a.xml".
Proof. reflexivity. Qed.

(** *** Traces and narration *)

Lemma launches_app (t1 t2 : list Event) :
  launches (t1 ++ t2) = (launches t1 ++ launches t2)%list.
Proof.
  induction t1 as [| e t1 IH]; simpl; [reflexivity |].
  destruct e; simpl; rewrite IH; reflexivity.
Qed.

Section Narration.

Context {A B : Type}.

Lemma narrates_ret (st : St) (a : A) : narrates_at st (ret a) a.
Proof.
  exists []. unfold ret. rewrite app_nil_r. destruct st; auto.
Qed.

Lemma narrates_bind (st : St) (m : M A) (k : A -> M B) (a : A) (b : B) :
  narrates_at st m a ->
  (forall st', machine st' = machine st -> stdin st' = stdin st ->
               narrates_at st' (k a) b) ->
  narrates_at st (bind m k) b.
Proof.
  intros [tr [Hm Hq]] Hk.
  destruct (Hk (mkSt (machine st) (stdin st) (trace st ++ tr)%list) eq_refl eq_refl)
    as [tr' [Hk' Hq']].
  exists (tr ++ tr')%list. unfold bind. rewrite Hm, Hk'. simpl.
  rewrite app_assoc, launches_app, Hq, Hq'. auto.
Qed.

End Narration.

Lemma narrates_write (st : St) (s : string) : narrates_at st (write s) tt.
Proof. exists [Write s]. auto. Qed.

Lemma narrates_print (st : St) (s : string) : narrates_at st (print s) tt.
Proof. apply narrates_write. Qed.

Lemma narrates_print_end (st : St) (s e : string) : narrates_at st (print_end s e) tt.
Proof. apply narrates_write. Qed.

Lemma narrates_get_machine (st : St) : narrates_at st get_machine (machine st).
Proof. exists []. unfold get_machine. rewrite app_nil_r. destruct st; auto. Qed.

Lemma narrates_print_all (lines : list string) :
  forall st, narrates_at st (print_all lines) tt.
Proof.
  induction lines as [| l rest IH]; intros st; simpl.
  - apply narrates_ret.
  - eapply narrates_bind; [apply narrates_print | intros; apply IH].
Qed.

Lemma narrates_print_numbered (files : list string) :
  forall i st, narrates_at st (print_numbered i files) tt.
Proof.
  induction files as [| f rest IH]; intros i st; simpl.
  - apply narrates_ret.
  - eapply narrates_bind; [apply narrates_print | intros; apply IH].
Qed.

Create HintDb narrate.
#[local] Hint Resolve narrates_ret narrates_write narrates_print narrates_print_end
  narrates_get_machine narrates_print_all narrates_print_numbered : narrate.

(** Chains of binds over narrating steps. *)
Ltac narrate :=
  repeat first
    [ progress eauto with narrate
    | eapply narrates_bind; [solve [eauto with narrate] | intros ? ? ?] ].

(** *** The dependency check *)

Lemma check_tools_from_present (m : Machine) (bs : list string) :
  forallb (shutil_which m) bs = true ->
  forall found missing,
    check_tools_from m bs found missing = ((found ++ bs)%list, missing).
Proof.
  induction bs as [| b bs IH]; simpl; intros H found missing.
  - rewrite app_nil_r. reflexivity.
  - apply andb_true_iff in H. destruct H as [Hb Hbs].
    rewrite Hb, (IH Hbs), <- app_assoc. reflexivity.
Qed.

Lemma check_tools_present (m : Machine) :
  forallb (shutil_which m) REQUIRED = true ->
  check_tools m = (REQUIRED, []).
Proof.
  intros H. unfold check_tools. rewrite (check_tools_from_present m REQUIRED H).
  reflexivity.
Qed.

(** C6.  When [nmap], [ndiff] and [xsltproc] are all found on the search
    path, [ensure_tools] returns [True] having only written to the console:
    it starts no child process, so neither an update nor an install command
    runs, and the machine is left as it was. *)
Theorem ensure_tools_all_present
    (os_spawn : list string -> Machine -> ProcResult * Machine) (st : St) :
  forallb (shutil_which (machine st)) REQUIRED = true ->
  narrates_at st (ensure_tools os_spawn) true.
Proof.
  intros H. unfold ensure_tools.
  eapply narrates_bind; [apply narrates_print | intros st1 Hm1 _].
  eapply narrates_bind; [apply narrates_get_machine | intros st2 Hm2 _].
  rewrite Hm1, (check_tools_present _ H).
  narrate.
Qed.

Lemma ensure_tools_all_present_witness :
  narrates_at (typing (box [] REQUIRED) []) (ensure_tools quiet_spawn) true.
Proof.
  apply ensure_tools_all_present. reflexivity.
Defined.

(** *** Listing a session's files *)

Lemma list_files_in_session_narrates (session extension : string) (st : St) :
  narrates_at st (list_files_in_session session extension)
              (session_files (machine st) session extension).
Proof.
  unfold list_files_in_session, session_files.
  eapply narrates_bind; [apply narrates_get_machine | intros st1 Hm1 _].
  destruct (fs (machine st) (Py.path_join SESSIONS_DIR session)) as [| entries | c];
    [narrate | | narrate].
  destruct (sorted (filter (fun f => Py.endswith f extension) entries)); narrate.
Qed.

Lemma written_app (t1 t2 : list Event) :
  written (t1 ++ t2) = (written t1 ++ written t2)%list.
Proof.
  induction t1 as [| e t1 IH]; simpl; [reflexivity |].
  destruct e; simpl; rewrite IH; reflexivity.
Qed.

(** C8.  With a session active whose directory lists fewer than two [.xml]
    files, [compare_scans] ends normally after writing its refusal: it reads
    no selection and starts no child process, [ndiff] included. *)
Theorem compare_scans_needs_two
    (os_spawn : list string -> Machine -> ProcResult * Machine)
    (session : string) (st : St) :
  Py.truthy session = true ->
  (List.length (session_files (machine st) session ".xml") < 2)%nat ->
  exists tr,
    compare_scans os_spawn (Some session) st
    = (Ok tt, mkSt (machine st) (stdin st) (trace st ++ tr)%list)
    /\ launches tr = []
    /\ last (written tr) EmptyString
       = Colors.YELLOW ++ "You need at least two XML scans in this session to compare."
         ++ Colors.ENDC ++ nl.
Proof.
  intros Hs Hlen.
  destruct (list_files_in_session_narrates session ".xml" st) as [tr [Hrun Hq]].
  exists (tr ++ [Write (Colors.YELLOW
                        ++ "You need at least two XML scans in this session to compare."
                        ++ Colors.ENDC ++ nl)])%list.
  unfold compare_scans, Py.otruthy. rewrite Hs. cbv beta iota delta [negb str_of_opt].
  unfold bind. rewrite Hrun.
  apply Nat.ltb_lt in Hlen. rewrite Hlen.
  unfold print, write. cbv beta iota delta [machine stdin trace].
  rewrite <- app_assoc. split; [reflexivity |]. split.
  - rewrite launches_app, Hq. reflexivity.
  - rewrite written_app. apply last_last.
Qed.

Lemma compare_scans_needs_two_witness :
  exists tr,
    compare_scans quiet_spawn (Some "web")
                  (typing (web_box ["scan_a.xml"; "scan_a.nmap"]) ["1"; "1"])
    = (Ok tt, mkSt (web_box ["scan_a.xml"; "scan_a.nmap"]) ["1"; "1"] ([] ++ tr)%list)
    /\ launches tr = []
    /\ last (written tr) EmptyString
       = Colors.YELLOW ++ "You need at least two XML scans in this session to compare."
         ++ Colors.ENDC ++ nl.
Proof.
  apply (compare_scans_needs_two quiet_spawn "web"
           (typing (web_box ["scan_a.xml"; "scan_a.nmap"]) ["1"; "1"])).
  - reflexivity.
  - vm_compute. lia.
Defined.
(** *** The order behind [sorted] *)

Lemma string_leb_trans (a b c : string) :
  String.leb a b = true -> String.leb b c = true -> String.leb a c = true.
Proof.
  unfold String.leb. revert b c.
  induction a as [| x a IH]; intros [| y b] [| z c]; simpl; try congruence.
  unfold Ascii.compare.
  destruct (N.compare_spec (N_of_ascii x) (N_of_ascii y)) as [Exy | Lxy | Gxy];
    destruct (N.compare_spec (N_of_ascii y) (N_of_ascii z)) as [Eyz | Lyz | Gyz];
    try congruence; intros Hab Hbc.
  - rewrite Exy, Eyz, N.compare_refl. apply (IH b c); assumption.
  - rewrite Exy. apply N.compare_lt_iff in Lyz. rewrite Lyz. reflexivity.
  - rewrite <- Eyz. apply N.compare_lt_iff in Lxy. rewrite Lxy. reflexivity.
  - assert (L : (N_of_ascii x < N_of_ascii z)%N) by lia.
    apply N.compare_lt_iff in L. rewrite L. reflexivity.
Qed.

Lemma sorted_strongly (l : list string) :
  StronglySorted (fun x y => String.leb x y = true) (sorted l).
Proof.
  apply Sorted_StronglySorted.
  - intros a b c. apply string_leb_trans.
  - apply StringSort.Sorted_sort.
Qed.

Lemma sorted_permutation (l : list string) : Permutation l (sorted l).
Proof. apply StringSort.Permuted_sort. Qed.

Lemma sorted_nil_iff (l : list string) : sorted l = [] <-> l = [].
Proof.
  split; intros H.
  - apply Permutation_nil. rewrite <- H. apply Permutation_sym, sorted_permutation.
  - subst. reflexivity.
Qed.

(** C5.  [list_files_in_session] only writes to the console and returns a
    list that is sorted in lexicographic order; when the session path is a
    directory the list holds exactly the entries ending with the suffix
    (it is a permutation of them); it is empty when the path is not a
    directory and when no entry matches; and a directory holding [a.xml]
    and [b.xml], listed in either order, gives [a.xml; b.xml] for the
    suffix [.xml]. *)
Theorem list_files_in_session_listing (session extension : string) (st : St) :
  let dir := fs (machine st) (Py.path_join SESSIONS_DIR session) in
  let matching := filter (fun f => Py.endswith f extension) in
  exists files,
    narrates_at st (list_files_in_session session extension) files
    /\ StronglySorted (fun x y => String.leb x y = true) files
    /\ (forall entries, dir = Dir entries -> Permutation (matching entries) files)
    /\ ((forall entries, dir <> Dir entries) -> files = [])
    /\ (forall entries, dir = Dir entries -> matching entries = [] -> files = [])
    /\ (forall entries, dir = Dir entries -> extension = ".xml" ->
                        Permutation ["a.xml"; "b.xml"] entries ->
                        files = ["a.xml"; "b.xml"]).
Proof.
  intros dir matching.
  exists (session_files (machine st) session extension).
  split; [apply list_files_in_session_narrates |].
  unfold session_files. fold dir.
  destruct dir as [| entries | c] eqn:Hdir.
  - repeat split; try constructor; try reflexivity; intros; discriminate.
  - fold (matching entries).
    split; [apply sorted_strongly |].
    split; [intros e He; injection He as <-; apply sorted_permutation |].
    split; [intros Hno; destruct (Hno entries eq_refl) |].
    split.
    + intros e He Hnone. injection He as <-. apply sorted_nil_iff. exact Hnone.
    + intros e He Hext Hperm. injection He as <-. subst extension.
      apply Permutation_length_2_inv in Hperm.
      destruct Hperm as [-> | ->]; reflexivity.
  - repeat split; try constructor; try reflexivity; intros; discriminate.
Qed.

Lemma list_files_in_session_listing_witness :
  exists files,
    narrates_at (typing (web_box ["b.xml"; "a.xml"]) [])
                (list_files_in_session "web" ".xml") files
    /\ files = ["a.xml"; "b.xml"].
Proof.
  destruct (list_files_in_session_listing "web" ".xml"
              (typing (web_box ["b.xml"; "a.xml"]) []))
    as [files [Hrun [_ [_ [_ [_ Hab]]]]]].
  exists files. split; [exact Hrun |].
  apply (Hab ["b.xml"; "a.xml"]); [reflexivity | reflexivity | apply perm_swap].
Defined.

(** *** Paths *)

Lemma endswith_sep_cons (c : ascii) (s : string) :
  s <> EmptyString ->
  Py.endswith (String c s) "/" = Py.endswith s "/".
Proof.
  intros Hs. destruct s as [| d s']; [congruence |].
  unfold Py.endswith. simpl String.length.
  replace (S (S (String.length s')) - 1)%nat with (S (String.length s')) by lia.
  replace (S (String.length s') - 1)%nat with (String.length s') by lia.
  reflexivity.
Qed.

Lemma endswith_sep_app (p s : string) :
  s <> EmptyString ->
  Py.endswith (p ++ s) "/" = Py.endswith s "/".
Proof.
  intros Hs. induction p as [| c p IH]; simpl; [reflexivity |].
  rewrite endswith_sep_cons; [exact IH |].
  destruct p; simpl; [exact Hs | discriminate].
Qed.

Lemma truthy_nonempty (s : string) : Py.truthy s = true -> s <> EmptyString.
Proof. intros H ->. discriminate. Qed.

(** [os.path.join] of two relative, non-empty pieces. *)
Lemma path_join_plain (a b : string) :
  Py.truthy a = true ->
  Py.endswith a "/" = false ->
  Py.startswith b "/" = false ->
  Py.path_join a b = a ++ "/" ++ b.
Proof.
  intros Ha He Hb. unfold Py.path_join. rewrite Hb, He.
  unfold Py.truthy in Ha. apply negb_true_iff in Ha. rewrite Ha. reflexivity.
Qed.

Lemma append_assoc (a b c : string) : (a ++ b) ++ c = a ++ (b ++ c).
Proof. induction a as [| x a IH]; simpl; [reflexivity | rewrite IH; reflexivity]. Qed.

(** For a session name that neither starts nor ends with the separator,
    [os.path.join] builds the path the specification words describe. *)
Lemma base_filename_plain (session timestamp : string) :
  Py.truthy session = true ->
  Py.startswith session "/" = false ->
  Py.endswith session "/" = false ->
  base_filename session timestamp = spec_base_filename session timestamp.
Proof.
  intros Ht Hs He. unfold base_filename, spec_base_filename.
  rewrite (path_join_plain SESSIONS_DIR session) by (reflexivity || assumption).
  rewrite path_join_plain.
  - rewrite !append_assoc. reflexivity.
  - reflexivity.
  - rewrite <- append_assoc, endswith_sep_app by (apply truthy_nonempty; exact Ht).
    exact He.
  - reflexivity.
Qed.

(** *** The process runner *)

(** What [run_command] starts: one child process, whose argument vector is
    the command, extended when a session is active and the command is a
    scan. *)
Lemma run_command_launch
    (os_spawn : list string -> Machine -> ProcResult * Machine)
    (c0 : string) (rest : list string) (session : option string) (st : St) :
  let command := c0 :: rest in
  let base := base_filename (str_of_opt session) (clock (machine st)) in
  exists st',
    run_command os_spawn command session st = (Ok tt, st')
    /\ stdin st' = stdin st
    /\ launches (trace st')
       = (launches (trace st)
          ++ [if Py.otruthy session && is_nmap_scan c0 command
              then extend_outputs command base else command])%list.
Proof.
  intros command base. destruct st as [m inp tr]. unfold run_command.
  change (Py.index command 0) with (Some c0).
  unfold or_raise, bind, ret, get_machine, print, write, spawn.
  subst base. cbn [machine stdin trace].
  set (saving := Py.otruthy session && is_nmap_scan c0 command).
  match goal with
  | |- context [os_spawn ?argv m] => destruct (os_spawn argv m) as [r m']
  end.
  destruct r as [msg | msg | rc out err]; [| | destruct saving];
    cbn [machine stdin trace];
    eexists; (split; [reflexivity |]); (split; [reflexivity |]);
    cbn [machine stdin trace];
    repeat rewrite launches_app; cbn [launches]; repeat rewrite app_nil_r; reflexivity.
Qed.

(** An empty command fails at [command[0]], before anything is done. *)
Lemma run_command_empty
    (os_spawn : list string -> Machine -> ProcResult * Machine)
    (session : option string) (st : St) :
  run_command os_spawn [] session st = (Raise IndexError, st).
Proof. reflexivity. Qed.

(** C1, as the code has it.  For every non-empty command, [run_command]
    starts exactly one child process.  When the command begins with [nmap],
    holds neither [-sn] nor [-sL], and a session is active, that process is
    given the command followed by exactly [-oN <base>.nmap -oX <base>.xml],
    where [<base>] is [os.path.join] of the sessions root, the session name
    and [scan_<timestamp>]; this is [<sessions-root>/<session>/scan_<timestamp>]
    whenever the session name neither starts nor ends with the separator.
    When the command holds [-sn] or [-sL], or no session is active, the
    process is given the command as it is. *)
Theorem run_command_outputs
    (os_spawn : list string -> Machine -> ProcResult * Machine)
    (c0 : string) (rest : list string) (session : option string) (st : St) :
  let command := c0 :: rest in
  let stamp := clock (machine st) in
  exists st' argv,
    run_command os_spawn command session st = (Ok tt, st')
    /\ launches (trace st') = (launches (trace st) ++ [argv])%list
    /\ (forall s,
          c0 = "nmap" -> Py.mem "-sn" command = false -> Py.mem "-sL" command = false ->
          session = Some s -> Py.truthy s = true ->
          let base := Py.path_join (Py.path_join SESSIONS_DIR s) ("scan_" ++ stamp) in
          argv = (command ++ ["-oN"; (base ++ ".nmap")%string; "-oX"; (base ++ ".xml")%string])%list
          /\ (Py.startswith s "/" = false -> Py.endswith s "/" = false ->
              base = spec_base_filename s stamp))
    /\ (Py.mem "-sn" command = true \/ Py.mem "-sL" command = true
        \/ Py.otruthy session = false ->
        argv = command).
Proof.
  intros command stamp.
  destruct (run_command_launch os_spawn c0 rest session st) as [st' [Hrun [_ Hl]]].
  exists st'. eexists. split; [exact Hrun |]. split; [exact Hl |].
  fold command. unfold is_nmap_scan. split.
  - intros s Hc Hsn HsL -> Ht.
    cbn [Py.otruthy str_of_opt]. rewrite Ht, Hsn, HsL, Hc, String.eqb_refl.
    cbn [andb negb]. split.
    + unfold extend_outputs, base_filename. rewrite <- app_assoc. reflexivity.
    + intros Hs He. apply (base_filename_plain s stamp); assumption.
  - intros [H | [H | H]]; rewrite H; cbn [negb andb];
      repeat rewrite andb_false_r; reflexivity.
Qed.

Lemma run_command_outputs_witness :
  exists st',
    run_command quiet_spawn ["nmap"; "-sC"; "10.0.0.5"] (Some "web")
                (typing (box [] REQUIRED) [])
    = (Ok tt, st')
    /\ launches (trace st')
       = [["nmap"; "-sC"; "10.0.0.5";
           "-oN"; "redeye_sessions/web/scan_2025-01-01_12-00-00.nmap";
           "-oX"; "redeye_sessions/web/scan_2025-01-01_12-00-00.xml"]].
Proof.
  destruct (run_command_outputs quiet_spawn "nmap" ["-sC"; "10.0.0.5"] (Some "web")
              (typing (box [] REQUIRED) []))
    as [st' [argv [Hrun [Hl [Hscan _]]]]].
  exists st'. split; [exact Hrun |].
  rewrite Hl.
  destruct (Hscan "web" eq_refl eq_refl eq_refl eq_refl eq_refl) as [-> _].
  reflexivity.
Defined.

(** C1, as the specification words it, fails for a session name that is an
    absolute path: [os.path.join] drops the sessions root, and the two
    output files are not of the form
    [<sessions-root>/<session>/scan_<timestamp>]. *)
Lemma run_command_outputs_counterexample :
  launches (trace (snd (run_command quiet_spawn ["nmap"; "-sC"; "10.0.0.5"] (Some "/tmp")
                                    (typing (box [] REQUIRED) []))))
  = [["nmap"; "-sC"; "10.0.0.5";
      "-oN"; "/tmp/scan_2025-01-01_12-00-00.nmap";
      "-oX"; "/tmp/scan_2025-01-01_12-00-00.xml"]]
  /\ spec_base_filename "/tmp" "2025-01-01_12-00-00"
     = "redeye_sessions//tmp/scan_2025-01-01_12-00-00"
  /\ Py.startswith "/tmp/scan_2025-01-01_12-00-00.nmap" SESSIONS_DIR = false.
Proof. repeat split. Qed.

(** C9.  A command whose first element is not [nmap] is started exactly as
    it is given, whatever the session and whatever else it holds; and every
    vector the advanced menu builds for its privileged choices begins with
    [sudo], so it is started as built, with no output-file argument added. *)
Theorem run_command_other_tool
    (os_spawn : list string -> Machine -> ProcResult * Machine)
    (session : option string) (st : St) :
  (forall c0 rest,
      c0 <> "nmap" ->
      exists st',
        run_command os_spawn (c0 :: rest) session st = (Ok tt, st')
        /\ launches (trace st') = (launches (trace st) ++ [c0 :: rest])%list)
  /\ (forall choice target ports st0 command,
         In choice SUDO_CHOICES ->
         advanced_command choice target ports st0 = (Ok (Some command), st) ->
         (exists rest, command = "sudo" :: "nmap" :: rest)
         /\ exists st',
             run_command os_spawn command session st = (Ok tt, st')
             /\ launches (trace st') = (launches (trace st) ++ [command])%list).
Proof.
  assert (Hgen : forall c0 rest,
             c0 <> "nmap" ->
             exists st',
               run_command os_spawn (c0 :: rest) session st = (Ok tt, st')
               /\ launches (trace st') = (launches (trace st) ++ [c0 :: rest])%list).
  { intros c0 rest Hc0.
    destruct (run_command_launch os_spawn c0 rest session st) as [st' [Hrun [_ Hl]]].
    exists st'. split; [exact Hrun |].
    rewrite Hl. unfold is_nmap_scan.
    apply String.eqb_neq in Hc0. rewrite Hc0.
    cbn [andb]. rewrite andb_false_r. reflexivity. }
  split; [exact Hgen |].
  intros choice target ports st0 command Hin Hbuilt.
  assert (Hsudo : exists rest, command = "sudo" :: "nmap" :: rest).
  { unfold SUDO_CHOICES in Hin. cbn [In] in Hin.
    unfold advanced_command, bind, ret, print, write, input in Hbuilt.
    repeat (destruct Hin as [<- | Hin];
            [ cbn [String.eqb Ascii.eqb Bool.eqb andb] in Hbuilt;
              cbn [machine stdin trace] in Hbuilt;
              repeat match type of Hbuilt with
                     | context [match stdin ?s with _ => _ end] => destruct (stdin s)
                     | context [if ?b then _ else _] => destruct b
                     end;
              try discriminate;
              injection Hbuilt as <- _; eexists; reflexivity
            | ]).
    contradiction. }
  split; [exact Hsudo |].
  destruct Hsudo as [rest ->]. apply Hgen. discriminate.
Qed.

(** *** Detecting the package manager *)

(** C2, as the code has it.  On a machine without the Termux marker whose
    [/etc/os-release] can be read and, lowercased, contains [ubuntu],
    [detect_os] returns the apt manager with install prefix
    [apt-get install -y] and update command [apt-get update -y]. *)
Theorem detect_os_ubuntu (m : Machine) (raw : string) :
  termux_marker m = false ->
  fs m "/etc/os-release" = File (Some raw) ->
  Py.contains "ubuntu" (Py.lower raw) = true ->
  detect_os m
  = ("ubuntu", Some "apt",
     Some ["apt-get"; "install"; "-y"], Some ["apt-get"; "update"; "-y"]).
Proof.
  intros Hmark Hfile Hub. unfold detect_os.
  fold (termux_marker m). rewrite Hmark.
  unfold detect_os_release. rewrite Hfile, Hub. reflexivity.
Qed.

Lemma detect_os_ubuntu_witness :
  detect_os ubuntu_box
  = ("ubuntu", Some "apt",
     Some ["apt-get"; "install"; "-y"], Some ["apt-get"; "update"; "-y"]).
Proof.
  apply (detect_os_ubuntu ubuntu_box ("NAME=Ubuntu" ++ nl ++ "ID=ubuntu" ++ nl));
    reflexivity.
Defined.

(** C2, as the specification words it, fails: on an Ubuntu machine the
    update command [detect_os] returns is not [apt-get update]. *)
Lemma detect_os_ubuntu_counterexample :
  termux_marker ubuntu_box = false
  /\ (exists raw, fs ubuntu_box "/etc/os-release" = File (Some raw)
                  /\ Py.contains "ubuntu" (Py.lower raw) = true)
  /\ snd (detect_os ubuntu_box) = Some ["apt-get"; "update"; "-y"]
  /\ snd (detect_os ubuntu_box) <> Some ["apt-get"; "update"].
Proof.
  split; [reflexivity |]. split.
  - eexists. split; reflexivity.
  - split; [reflexivity | discriminate].
Qed.

(** *** Package names *)

(** The table of [pkg_name_for_bin] is as C4 says. *)
Lemma pkg_name_for_bin_table :
  pkg_name_for_bin "ndiff" (Some "apt") = "nmap"
  /\ pkg_name_for_bin "ndiff" (Some "pkg") = "nmap"
  /\ pkg_name_for_bin "ndiff" (Some "pacman") = "nmap"
  /\ pkg_name_for_bin "xsltproc" (Some "pacman") = "libxslt"
  /\ pkg_name_for_bin "xsltproc" (Some "dnf") = "libxslt"
  /\ pkg_name_for_bin "xsltproc" (Some "yum") = "libxslt".
Proof. repeat split. Qed.

(** C4 fails on the second lookup of the program, the package map of
    [install_dependency], which the interactive start-up uses: with
    [apt-get] on the search path, and with [dnf] or [yum], [ndiff] resolves
    to [ndiff], its own binary name, and that is the package the install
    command is given. *)
Theorem install_dependency_ndiff :
  install_plan (box [] ["apt-get"]) "ndiff"
  = Some ("apt-get", Some "ndiff",
          ["sudo"; "apt-get"; "update"], ["sudo"; "apt-get"; "install"; "-y"])
  /\ install_plan (box [] ["dnf"]) "ndiff"
     = Some ("dnf", Some "ndiff", [], ["sudo"; "dnf"; "install"; "-y"])
  /\ install_plan (box [] ["yum"]) "ndiff"
     = Some ("yum", Some "ndiff", [], ["sudo"; "yum"; "install"; "-y"])
  /\ launches (trace (snd (install_dependency quiet_spawn "ndiff"
                                              (typing (box [] ["apt-get"]) ["y"]))))
     = [["sudo"; "apt-get"; "update"];
        ["sudo"; "apt-get"; "install"; "-y"; "ndiff"]]
  /\ pkg_name_for_bin "ndiff" (Some "apt") = "nmap".
Proof. repeat split. Qed.

(** *** Selecting files by number *)

(** C3 fails on the inputs [0] and negative numbers down to minus the
    number of files plus one: the index wraps around.  With [a.xml] and
    [b.xml] listed, the selection [0] makes [generate_report] run
    [xsltproc] on [b.xml], and the selections [0] and [-1] make
    [compare_scans] run [ndiff] on [b.xml] and [a.xml]; the invalid
    selection message is not written. *)
Theorem selection_zero_selects_last :
  launches (trace (snd (generate_report quiet_spawn (Some "web")
                                        (typing (web_box ["a.xml"; "b.xml"]) ["0"]))))
  = [["xsltproc"; "-o"; "redeye_sessions/web/b.html"; "redeye_sessions/web/b.xml"]]
  /\ launches (trace (snd (compare_scans quiet_spawn (Some "web")
                                         (typing (web_box ["a.xml"; "b.xml"]) ["0"; "-1"]))))
     = [["ndiff"; "redeye_sessions/web/b.xml"; "redeye_sessions/web/a.xml"]]
  /\ ~ In (INVALID_SELECTION ++ nl)
          (written (trace (snd (generate_report quiet_spawn (Some "web")
                                  (typing (web_box ["a.xml"; "b.xml"]) ["0"]))))).
Proof.
  split; [reflexivity |]. split; [reflexivity |].
  vm_compute. intros H.
  repeat (destruct H as [H | H]; [discriminate H |]). exact H.
Qed.

(** *** The report path *)

(** C7 fails when [.xml] occurs in the path before its end: [str.replace]
    rewrites every occurrence.  For the session [v1.xml] the report path
    lies in another directory, [redeye_sessions/v1.html]. *)
Theorem generate_report_replaces_everywhere :
  launches (trace (snd (generate_report quiet_spawn (Some "v1.xml")
                                        (typing dotted_box ["1"]))))
  = [["xsltproc"; "-o";
      "redeye_sessions/v1.html/scan_2025-01-01_12-00-00.html";
      "redeye_sessions/v1.xml/scan_2025-01-01_12-00-00.xml"]]
  /\ Py.replace "redeye_sessions/web/a.xml.bak.xml" ".xml" ".html"
     = "redeye_sessions/web/a.html.bak.html".
Proof. split; reflexivity. Qed.

(** *** The session variable of the main loop *)

Lemma show_menu_narrates (target ports session : option string) (st : St) :
  narrates_at st (show_menu target ports session) tt.
Proof.
  unfold show_menu.
  destruct (Py.otruthy session), (Py.otruthy target), (Py.otruthy ports); narrate.
Qed.

(** [set_session] returns [None] on an empty name and on a failed
    [os.makedirs], having started nothing. *)
Lemma set_session_fails
    (os_makedirs : string -> Machine -> string + Machine)
    (st : St) (name : string) (rest : list string) :
  stdin st = name :: rest ->
  (Py.strip name = EmptyString
   \/ exists msg,
       os_makedirs (Py.path_join SESSIONS_DIR (Py.strip name)) (machine st) = inl msg) ->
  exists tr,
    set_session os_makedirs st
    = (Ok None, mkSt (machine st) rest (trace st ++ tr)%list)
    /\ launches tr = [].
Proof.
  intros Hin Hfail. destruct st as [m inp t]. cbn [stdin machine trace] in *. subst inp.
  unfold set_session, bind, input. cbn [stdin machine trace].
  destruct (Py.truthy (Py.strip name)) eqn:Ht; cbn [negb].
  - destruct Hfail as [Hempty | [msg Hmk]].
    + rewrite Hempty in Ht. discriminate.
    + unfold try_except, bind, makedirs. cbn [stdin machine trace].
      rewrite Hmk. unfold print, write, ret. cbn [stdin machine trace].
      eexists. rewrite <- app_assoc. split; reflexivity.
  - unfold print, write, ret. cbn [stdin machine trace].
    eexists. rewrite <- app_assoc. split; reflexivity.
Qed.

(** C10.  When the choice is [8] and setting the session fails, because
    the name typed is empty once stripped or because [os.makedirs] raises
    [OSError], the turn of the main loop ends with no current session,
    whatever session was current before; target and ports are kept. *)
Theorem main_step_session_lost
    (os_spawn : list string -> Machine -> ProcResult * Machine)
    (os_makedirs : string -> Machine -> string + Machine)
    (s : AppState) (st : St) (line name : string) (rest : list string) :
  stdin st = line :: name :: rest ->
  Py.strip line = "8" ->
  (Py.strip name = EmptyString
   \/ exists msg,
       os_makedirs (Py.path_join SESSIONS_DIR (Py.strip name)) (machine st) = inl msg) ->
  exists st',
    main_step os_spawn os_makedirs s st
    = (Ok (Continue (mkApp (current_target s) (current_ports s) None)), st')
    /\ launches (trace st') = launches (trace st)
    /\ machine st' = machine st.
Proof.
  intros Hin Hline Hfail.
  destruct (show_menu_narrates (current_target s) (current_ports s) (current_session s) st)
    as [tr1 [Hmenu Hq1]].
  unfold main_step, try_except, main_body, bind.
  rewrite Hmenu. unfold input. cbn [stdin machine trace]. rewrite Hin, Hline.
  cbn [String.eqb Ascii.eqb Bool.eqb andb].
  set (st1 := mkSt (machine st) (name :: rest) _).
  destruct (set_session_fails os_makedirs st1 name rest eq_refl Hfail) as [tr2 [Hset Hq2]].
  rewrite Hset. unfold ret. eexists. split; [reflexivity |].
  subst st1. cbn [stdin machine trace]. split; [| reflexivity].
  repeat rewrite launches_app. rewrite Hq1, Hq2. cbn [launches].
  repeat rewrite app_nil_r. reflexivity.
Qed.

Lemma main_step_session_lost_witness :
  exists st',
    main_step quiet_spawn denied_makedirs
              (mkApp (Some "10.0.0.5") None (Some "web"))
              (typing (web_box []) ["8"; "audit"])
    = (Ok (Continue (mkApp (Some "10.0.0.5") None None)), st')
    /\ launches (trace st') = []
    /\ machine st' = web_box [].
Proof.
  apply (main_step_session_lost quiet_spawn denied_makedirs
           (mkApp (Some "10.0.0.5") None (Some "web"))
           (typing (web_box []) ["8"; "audit"]) "8" "audit" []).
  - reflexivity.
  - reflexivity.
  - right. eexists. reflexivity.
Defined.

(** *** What the selection and the report path get right *)



Lemma prefix_split (a s : string) :
  String.prefix a s = true -> exists r, s = a ++ r.
Proof.
  revert s. induction a as [| x a IH]; intros s H.
  - exists s. reflexivity.
  - destruct s as [| y s]; simpl in H; [discriminate |].
    destruct (ascii_dec x y) as [-> | _]; [| discriminate].
    destruct (IH s H) as [r ->]. exists r. reflexivity.
Qed.




(** *** The loops that read a line on every turn *)

(** For such a turn, the loop needs no more turns than one more than the
    lines waiting: further fuel changes nothing, so the bound taken by
    [while_reading] loses no run. *)
Lemma loop_until_enough (turn : M bool) :
  consumes turn ->
  forall fuel extra st,
    (List.length (stdin st) < fuel)%nat ->
    loop_until turn (fuel + extra) st = loop_until turn fuel st.
Proof.
  intros Hturn. induction fuel as [| fuel IH]; intros extra st Hlen; [lia |].
  cbn [Nat.add loop_until]. unfold bind.
  destruct (turn st) as [[stop | e] st'] eqn:Hrun; [| reflexivity].
  destruct stop; [reflexivity |].
  apply IH. specialize (Hturn st false st' Hrun). lia.
Qed.

Lemma show_helper_turn_consumes : consumes show_helper_turn.
Proof.
  intros st r st' Hrun. unfold show_helper_turn in Hrun.
  unfold bind at 1 in Hrun.
  destruct (narrates_print st (nl ++ Colors.HEADER ++ Colors.BOLD
                                 ++ "--- Nmap Command Helper ---" ++ Colors.ENDC))
    as [tr1 [H1 _]].
  rewrite H1 in Hrun. unfold bind at 1 in Hrun.
  match type of Hrun with
  | context [print_all ?ls ?s] =>
      destruct (narrates_print_all ls s) as [tr2 [H2 _]]; rewrite H2 in Hrun
  end.
  unfold bind at 1, input in Hrun. cbn [machine stdin trace] in Hrun.
  destruct (stdin st) as [| line rest]; [discriminate Hrun |].
  match type of Hrun with
  | bind ?m ?k ?s = _ =>
      assert (Hkeep : forall a s', bind m k s = (Ok a, s') -> stdin s' = rest)
  end.
  { clear. intros a s' H.
    unfold bind at 1, print, write in H. cbn [machine stdin trace] in H.
    destruct (line =? "0"); [injection H as _ <-; reflexivity |].
    unfold bind at 1 in H.
    match type of H with
    | context [match ?topic ?s0 with _ => _ end] =>
        assert (Hn : narrates_at s0 topic tt)
    end.
    { unfold helper_topic.
      repeat match goal with
             | |- narrates_at _ (if ?b then _ else _) _ => destruct b
             end; narrate. }
    destruct Hn as [tr [Hn _]]. rewrite Hn in H.
    unfold bind, print, write, ret in H. cbn [machine stdin trace] in H.
    injection H as _ <-. reflexivity. }
  rewrite (Hkeep r st' Hrun). cbn [List.length]. lia.
Qed.

Lemma advanced_command_stdin (choice target : string) (ports : option string)
    (st : St) (r : option (list string)) (st' : St) :
  advanced_command choice target ports st = (Ok r, st') ->
  (List.length (stdin st') <= List.length (stdin st))%nat.
Proof.
  unfold advanced_command, bind, ret, print, write, input.
  cbn [machine stdin trace]. intros H.
  repeat match type of H with
         | context [if (choice =? ?c) then _ else _] => destruct (choice =? c)
         end;
    repeat match type of H with
           | context [match stdin st with _ => _ end] =>
               destruct (stdin st) as [| line rest]
           | context [if ?b then _ else _] => destruct b
           end;
    try discriminate;
    injection H as _ <-; cbn [stdin List.length]; lia.
Qed.

Lemma show_advanced_scans_turn_consumes
    (os_spawn : list string -> Machine -> ProcResult * Machine)
    (target : string) (ports session : option string) :
  consumes (show_advanced_scans_turn os_spawn target ports session).
Proof.
  intros st r st' Hrun. unfold show_advanced_scans_turn in Hrun.
  unfold bind at 1 in Hrun.
  match type of Hrun with
  | context [print ?text st] =>
      destruct (narrates_print st text) as [tr1 [H1 _]]; rewrite H1 in Hrun
  end.
  unfold bind at 1 in Hrun.
  match type of Hrun with
  | context [match ?banner ?s0 with _ => _ end] =>
      assert (Hn : narrates_at s0 banner tt) by (destruct (Py.otruthy ports); narrate)
  end.
  destruct Hn as [tr2 [H2 _]]. rewrite H2 in Hrun.
  unfold bind at 1 in Hrun.
  match type of Hrun with
  | context [print_all ?ls ?s] =>
      destruct (narrates_print_all ls s) as [tr3 [H3 _]]; rewrite H3 in Hrun
  end.
  unfold bind at 1, input in Hrun. cbn [machine stdin trace] in Hrun.
  destruct (stdin st) as [| line rest]; [discriminate Hrun |].
  cbn [List.length].
  destruct (line =? "0"); [injection Hrun as _ <-; cbn [stdin]; lia |].
  unfold bind at 1 in Hrun.
  match type of Hrun with
  | context [advanced_command line target ports ?s0] =>
      destruct (advanced_command line target ports s0) as [[built | e] s1] eqn:Hbuilt;
      [apply advanced_command_stdin in Hbuilt; cbn [stdin] in Hbuilt | discriminate Hrun]
  end.
  destruct built as [[| c cs] |].
  - injection Hrun as _ <-. lia.
  - unfold bind in Hrun.
    destruct (run_command_launch os_spawn c cs session s1) as [s2 [Hlaunch [Hkeep _]]].
    rewrite Hlaunch in Hrun. injection Hrun as _ <-. rewrite Hkeep. lia.
  - injection Hrun as _ <-. lia.
Qed.

(* ===================================================================== *)
(** ** Further properties of the code *)
(* ===================================================================== *)

(** *** Removing duplicate package names *)

Lemma mem_In (x : string) (l : list string) : Py.mem x l = true <-> In x l.
Proof.
  unfold Py.mem. rewrite existsb_exists. split.
  - intros [y [Hy Heq]]. apply String.eqb_eq in Heq. subst. exact Hy.
  - intros H. exists x. split; [exact H | apply String.eqb_refl].
Qed.

Lemma mem_not_In (x : string) (l : list string) : Py.mem x l = false <-> ~ In x l.
Proof.
  rewrite <- mem_In. destruct (Py.mem x l); split; congruence.
Qed.

Lemma dedupe_invariant (pkg_names : list string) :
  forall seen uniq,
    (forall x, In x seen <-> In x uniq) ->
    NoDup uniq ->
    NoDup (dedupe seen uniq pkg_names)
    /\ (forall x, In x (dedupe seen uniq pkg_names) <-> In x uniq \/ In x pkg_names).
Proof.
  induction pkg_names as [| p rest IH]; intros seen uniq Hsame Hnd; cbn [dedupe].
  - split; [exact Hnd |]. intros x. cbn [In]. tauto.
  - destruct (Py.mem p seen) eqn:Hp.
    + apply mem_In in Hp. destruct (IH seen uniq Hsame Hnd) as [Hn Hin].
      split; [exact Hn |]. intros x. rewrite Hin. cbn [In].
      split; [tauto |]. intros [H | [<- | H]]; auto.
      left. apply Hsame. exact Hp.
    + apply mem_not_In in Hp.
      destruct (IH (p :: seen) (uniq ++ [p])%list) as [Hn Hin].
      * intros x. cbn [In]. rewrite in_app_iff, Hsame. cbn [In]. tauto.
      * apply NoDup_app; [exact Hnd | repeat constructor; auto |].
        intros x Hx [<- | []]. apply Hp, Hsame, Hx.
      * split; [exact Hn |]. intros x. rewrite Hin, in_app_iff. cbn [In]. tauto.
Qed.

Lemma dedupe_fresh (pkg_names : list string) :
  forall seen uniq,
    NoDup pkg_names ->
    (forall x, In x pkg_names -> ~ In x seen) ->
    dedupe seen uniq pkg_names = (uniq ++ pkg_names)%list.
Proof.
  induction pkg_names as [| p rest IH]; intros seen uniq Hnd Hfresh; cbn [dedupe].
  - rewrite app_nil_r. reflexivity.
  - assert (Hp : Py.mem p seen = false)
      by (apply mem_not_In, Hfresh; left; reflexivity).
    rewrite Hp. inversion Hnd as [| ? ? Hnotin Hnd']; subst.
    rewrite IH; [rewrite <- app_assoc; reflexivity | exact Hnd' |].
    intros x Hx [<- | Hs]; [exact (Hnotin Hx) |].
    apply (Hfresh x); [right; exact Hx | exact Hs].
Qed.

(** X1.  The package list [attempt_install] hands to the installer, built
    by the seen-set loop, has no name twice, holds exactly the names of the
    input, and is the input itself when the input has no name twice. *)
Theorem dedupe_unique (pkg_names : list string) :
  NoDup (dedupe [] [] pkg_names)
  /\ (forall x, In x (dedupe [] [] pkg_names) <-> In x pkg_names)
  /\ (NoDup pkg_names -> dedupe [] [] pkg_names = pkg_names).
Proof.
  destruct (dedupe_invariant pkg_names [] []) as [Hn Hin];
    [tauto | constructor |].
  split; [exact Hn |]. split.
  - intros x. rewrite Hin. cbn [In]. tauto.
  - intros Hnd. apply (dedupe_fresh pkg_names [] [] Hnd). intros x _ [].
Qed.

(** *** Looking the tools up *)

Lemma check_tools_from_filter (m : Machine) (bs : list string) :
  forall found missing,
    check_tools_from m bs found missing
    = ((found ++ filter (shutil_which m) bs)%list,
       (missing ++ filter (fun b => negb (shutil_which m b)) bs)%list).
Proof.
  induction bs as [| b bs IH]; intros found missing; cbn [check_tools_from filter].
  - rewrite !app_nil_r. reflexivity.
  - destruct (shutil_which m b); cbn [negb]; rewrite IH, <- app_assoc; reflexivity.
Qed.

Lemma filter_split {A} (f : A -> bool) (l : list A) :
  Permutation (filter f l ++ filter (fun x => negb (f x)) l) l.
Proof.
  induction l as [| a l IH]; cbn [filter]; [constructor |].
  destruct (f a); cbn [negb app].
  - apply perm_skip, IH.
  - apply Permutation_sym, (Permutation_trans (l' := a :: filter f l ++ filter (fun x => negb (f x)) l)).
    + apply perm_skip, Permutation_sym, IH.
    + apply Permutation_middle.
Qed.

(** X2.  [check_tools] splits the required tools in two: a tool is in the
    first list exactly when the search path resolves it and in the second
    exactly when it does not, each list keeps the order of [REQUIRED], and
    nothing else is in either list. *)
Theorem check_tools_partition (m : Machine) :
  check_tools m
  = (filter (shutil_which m) REQUIRED,
     filter (fun b => negb (shutil_which m b)) REQUIRED)
  /\ (forall b, In b (fst (check_tools m)) <-> In b REQUIRED /\ shutil_which m b = true)
  /\ (forall b, In b (snd (check_tools m)) <-> In b REQUIRED /\ shutil_which m b = false)
  /\ Permutation (fst (check_tools m) ++ snd (check_tools m)) REQUIRED.
Proof.
  assert (H : check_tools m
              = (filter (shutil_which m) REQUIRED,
                 filter (fun b => negb (shutil_which m b)) REQUIRED))
    by (unfold check_tools; rewrite check_tools_from_filter; reflexivity).
  split; [exact H |]. rewrite H. cbn [fst snd].
  split; [intros b; apply filter_In |]. split.
  - intros b. rewrite filter_In, negb_true_iff. tauto.
  - apply filter_split.
Qed.

(** *** The range of [detect_os] *)

Lemma prefix_self_app (b r : string) : String.prefix b (b ++ r) = true.
Proof.
  induction b as [| c b IH]; [destruct r; reflexivity |].
  cbn [append String.prefix]. destruct (ascii_dec c c); [exact IH | congruence].
Qed.

Lemma contains_here (sub s : string) :
  String.prefix sub s = true -> Py.contains sub s = true.
Proof. intros H. destruct s; cbn [Py.contains]; rewrite H; reflexivity. Qed.

Lemma contains_cons (sub : string) (c : ascii) (s : string) :
  Py.contains sub s = true -> Py.contains sub (String c s) = true.
Proof. intros H. cbn [Py.contains]. rewrite H. apply orb_true_r. Qed.

Lemma contains_app_l (sub a t : string) :
  Py.contains sub t = true -> Py.contains sub (a ++ t) = true.
Proof.
  intros H. induction a as [| c a IH]; [exact H |].
  cbn [append]. apply contains_cons, IH.
Qed.

Lemma contains_unfold (sub s : string) :
  Py.contains sub s
  = String.prefix sub s
    || match s with
       | EmptyString => false
       | String _ s' => Py.contains sub s'
       end.
Proof. destruct s; reflexivity. Qed.

(** A string that holds [a ++ b] holds [b]. *)
Lemma contains_suffix (a b s : string) :
  Py.contains (a ++ b) s = true -> Py.contains b s = true.
Proof.
  induction s as [| c s IH]; intros H; rewrite contains_unfold in H;
    apply orb_true_iff in H; destruct H as [H | H]; try discriminate.
  - destruct (prefix_split _ _ H) as [r Hr].
    rewrite Hr, append_assoc. apply contains_app_l, contains_here, prefix_self_app.
  - destruct (prefix_split _ _ H) as [r Hr].
    rewrite Hr, append_assoc. apply contains_app_l, contains_here, prefix_self_app.
  - apply contains_cons, IH, H.
Qed.

(** X3.  [detect_os] has eight possible results.  So the manager, the
    install command and the update command are present together or absent
    together, absent exactly when the OS id is [unknown], and both commands
    run one and the same executable. *)
Theorem detect_os_range (m : Machine) :
  In (detect_os m)
     [undetected; apt_as "ubuntu"; apt_as "debian"; apt_as "debian-like";
      pacman_as "arch"; dnf_as "redhat"; yum_as "redhat"; pkg_as "termux"]
  /\ match detect_os m with
     | (os_id, None, None, None) => os_id = "unknown"
     | (os_id, Some _, Some (exe :: _), Some (exe' :: _)) =>
         os_id <> "unknown" /\ exe = exe'
     | _ => False
     end.
Proof.
  assert (H : In (detect_os m)
                 [undetected; apt_as "ubuntu"; apt_as "debian"; apt_as "debian-like";
                  pacman_as "arch"; dnf_as "redhat"; yum_as "redhat"; pkg_as "termux"]).
  { unfold detect_os, detect_os_release.
    destruct (fs m "/etc/os-release") as [| entries | [raw |]];
      repeat match goal with
             | |- context [if ?b then _ else _] => destruct b
             end;
      cbn; tauto. }
  split; [exact H |].
  cbn [In] in H.
  repeat (destruct H as [<- | H]; [cbn; try split; congruence |]).
  destruct H.
Qed.

(** X4.  A descriptor that cannot be read counts as none: two machines
    that agree on the Termux marker and on the search path, neither with a
    readable [/etc/os-release], get the same result. *)
Theorem detect_os_unreadable (m1 m2 : Machine) :
  termux_marker m1 = termux_marker m2 ->
  (forall name, shutil_which m1 name = shutil_which m2 name) ->
  (forall raw, fs m1 "/etc/os-release" <> File (Some raw)) ->
  (forall raw, fs m2 "/etc/os-release" <> File (Some raw)) ->
  detect_os m1 = detect_os m2.
Proof.
  intros Hmark Hwhich H1 H2. unfold detect_os.
  fold (termux_marker m1). fold (termux_marker m2). rewrite Hmark.
  assert (R1 : detect_os_release m1 = undetected).
  { unfold detect_os_release.
    destruct (fs m1 "/etc/os-release") as [| ? | [raw |]]; try reflexivity.
    destruct (H1 raw eq_refl). }
  assert (R2 : detect_os_release m2 = undetected).
  { unfold detect_os_release.
    destruct (fs m2 "/etc/os-release") as [| ? | [raw |]]; try reflexivity.
    destruct (H2 raw eq_refl). }
  rewrite R1, R2. unfold undetected. rewrite !Hwhich. reflexivity.
Qed.

Lemma detect_os_unreadable_witness :
  detect_os (box [("/etc/os-release", File None)] ["pacman"])
  = detect_os (box [] ["pacman"]).
Proof.
  apply detect_os_unreadable.
  - reflexivity.
  - intros name. reflexivity.
  - intros raw. discriminate.
  - intros raw. discriminate.
Defined.

(** X5.  The [ID_LIKE] test never decides for a descriptor that spells
    [id_like=debian] out: such a descriptor holds [debian], so it is taken
    by the Ubuntu or the Debian test before, and the OS id is [ubuntu] or
    [debian], not [debian-like]. *)
Theorem detect_os_id_like_shadowed (m : Machine) (raw : string) :
  termux_marker m = false ->
  fs m "/etc/os-release" = File (Some raw) ->
  Py.contains "id_like=debian" (Py.lower raw) = true ->
  detect_os m = apt_as "ubuntu" \/ detect_os m = apt_as "debian".
Proof.
  intros Hmark Hfile Hlike.
  assert (Hdeb : Py.contains "debian" (Py.lower raw) = true)
    by (apply (contains_suffix "id_like=" "debian"); exact Hlike).
  unfold detect_os. fold (termux_marker m). rewrite Hmark.
  unfold detect_os_release. rewrite Hfile, Hdeb.
  destruct (Py.contains "ubuntu" (Py.lower raw)); [left | right]; reflexivity.
Qed.

Lemma detect_os_id_like_shadowed_witness :
  detect_os (box [("/etc/os-release", File (Some ("ID=mint" ++ nl ++ "ID_LIKE=debian")))] [])
  = apt_as "ubuntu"
  \/ detect_os (box [("/etc/os-release", File (Some ("ID=mint" ++ nl ++ "ID_LIKE=debian")))] [])
     = apt_as "debian".
Proof.
  apply (detect_os_id_like_shadowed _ ("ID=mint" ++ nl ++ "ID_LIKE=debian"));
    reflexivity.
Defined.

Lemma detect_os_release_range (m : Machine) :
  In (detect_os_release m)
     [undetected; apt_as "ubuntu"; apt_as "debian"; apt_as "debian-like";
      pacman_as "arch"; dnf_as "redhat"; yum_as "redhat"].
Proof.
  unfold detect_os_release.
  destruct (fs m "/etc/os-release") as [| entries | [raw |]];
    repeat match goal with
           | |- context [if ?b then _ else _] => destruct b
           end;
    cbn; tauto.
Qed.

(** X6.  A package manager on the search path is always found: when one
    of [apt-get], [pacman], [dnf], [yum], [pkg] resolves, [detect_os]
    returns a manager with its commands; and on a machine without the
    Termux marker, without a readable descriptor and without any of the
    five, it returns the unknown result. *)
Theorem detect_os_probe (m : Machine) :
  ((exists b, In b ["apt-get"; "pacman"; "dnf"; "yum"; "pkg"] /\ shutil_which m b = true) ->
   exists os_id p install update,
     detect_os m = (os_id, Some p, Some install, Some update))
  /\ (termux_marker m = false ->
      (forall raw, fs m "/etc/os-release" <> File (Some raw)) ->
      (forall b, In b ["apt-get"; "pacman"; "dnf"; "yum"; "pkg"] ->
                 shutil_which m b = false) ->
      detect_os m = undetected).
Proof.
  split.
  - intros [b [Hb Hwhich]]. unfold detect_os.
    destruct (Py.startswith (env_PREFIX m) TERMUX_USR || path_exists m TERMUX_USR);
      [repeat eexists |].
    destruct (detect_os_release_range m) as [R | R];
      [| cbn [In] in R;
         repeat (destruct R as [<- | R]; [repeat eexists |]); destruct R].
    rewrite <- R. unfold undetected.
    destruct (shutil_which m "apt-get") eqn:E1; [repeat eexists |].
    destruct (shutil_which m "pacman") eqn:E2; [repeat eexists |].
    destruct (shutil_which m "dnf") eqn:E3; [repeat eexists |].
    destruct (shutil_which m "yum") eqn:E4; [repeat eexists |].
    destruct (shutil_which m "pkg") eqn:E5; [repeat eexists |].
    cbn [In] in Hb.
    repeat (destruct Hb as [<- | Hb]; [congruence |]). destruct Hb.
  - intros Hmark Hfile Hnone. unfold detect_os. fold (termux_marker m). rewrite Hmark.
    assert (R : detect_os_release m = undetected).
    { unfold detect_os_release.
      destruct (fs m "/etc/os-release") as [| ? | [raw |]]; try reflexivity.
      destruct (Hfile raw eq_refl). }
    rewrite R. unfold undetected.
    rewrite !Hnone by (cbn [In]; tauto). reflexivity.
Qed.

(** *** Installing what is missing *)

Section Returns.

Context {A B : Type}.

Lemma returns_ret (a : A) (st : St) (Q : A -> St -> Prop) :
  Q a st -> returns (ret a) st Q.
Proof. intros H. exists a, st. split; [reflexivity | exact H]. Qed.

Lemma returns_bind (m : M A) (k : A -> M B) (st : St) (Q : B -> St -> Prop) :
  returns m st (fun a st' => returns (k a) st' Q) -> returns (bind m k) st Q.
Proof.
  intros [a [st' [Hm [b [st'' [Hk HQ]]]]]].
  exists b, st''. unfold bind. rewrite Hm. split; assumption.
Qed.

Lemma returns_weaken (m : M A) (st : St) (Q Q' : A -> St -> Prop) :
  returns m st Q -> (forall a st', Q a st' -> Q' a st') -> returns m st Q'.
Proof. intros [a [st' [Hm HQ]]] H. exists a, st'. auto. Qed.

End Returns.

Lemma after_refl (st : St) : after st [] st.
Proof. split; [reflexivity | rewrite app_nil_r; reflexivity]. Qed.

Lemma after_trans (st1 st2 st3 : St) (l1 l2 : list (list string)) :
  after st1 l1 st2 -> after st2 l2 st3 -> after st1 (l1 ++ l2) st3.
Proof.
  intros [Hi1 Hl1] [Hi2 Hl2]. split; [congruence |].
  rewrite Hl2, Hl1, app_assoc. reflexivity.
Qed.

Lemma returns_print (s : string) (st : St) (Q : unit -> St -> Prop) :
  (forall st', after st [] st' -> machine st' = machine st -> Q tt st') ->
  returns (print s) st Q.
Proof.
  intros H. eexists tt, _. split; [reflexivity |]. apply H; [| reflexivity].
  split; [reflexivity |]. cbn [trace]. rewrite launches_app. reflexivity.
Qed.

Lemma returns_get_machine (st : St) (Q : Machine -> St -> Prop) :
  Q (machine st) st -> returns get_machine st Q.
Proof. intros H. exists (machine st), st. split; [reflexivity | exact H]. Qed.

Lemma returns_run_cmd
    (os_spawn : list string -> Machine -> ProcResult * Machine)
    (cmd : list string) (capture : bool) (st : St)
    (Q : Z * string * string -> St -> Prop) :
  (forall r st',
      after st [cmd] st' -> machine st' = snd (os_spawn cmd (machine st)) -> Q r st') ->
  returns (run_cmd os_spawn cmd capture) st Q.
Proof.
  intros H. unfold returns, run_cmd, bind, spawn.
  assert (Haft : forall m',
             after st [cmd] (mkSt m' (stdin st) (trace st ++ [Exec cmd])%list)).
  { intros m'. split; [reflexivity |]. cbn [trace]. rewrite launches_app. reflexivity. }
  destruct (os_spawn cmd (machine st)) as [r m'] eqn:Hspawn.
  destruct r as [msg | msg | rc out err]; [| | destruct capture];
    eexists _, _; (split; [reflexivity |]); (apply H; [apply Haft | reflexivity]).
Qed.

(** What [attempt_install] does, whatever the installer answers.  [Inv]
    is any property of the machine that no child process undoes. *)
Lemma attempt_install_run
    (os_spawn : list string -> Machine -> ProcResult * Machine)
    (Inv : Machine -> Prop)
    (missing : list string) (pkg_manager : option string)
    (install_cmd update_cmd : option (list string)) (st : St) :
  (forall argv m, Inv m -> Inv (snd (os_spawn argv m))) ->
  Inv (machine st) ->
  returns (attempt_install os_spawn missing pkg_manager install_cmd update_cmd) st
    (fun ok st' =>
       (ok = true -> snd (check_tools (machine st')) = [])
       /\ Inv (machine st')
       /\ match pkg_manager, install_cmd with
          | Some _, Some install =>
              let cmd := (install
                          ++ dedupe [] [] (map (fun b => pkg_name_for_bin b pkg_manager)
                                               missing))%list in
              let pre := match update_cmd with
                         | Some (u :: us) => [u :: us]
                         | _ => []
                         end in
              after st (pre ++ [cmd]) st'
              \/ (after st (pre ++ [cmd; "sudo" :: cmd]) st'
                  /\ exists st1, after st (pre ++ [cmd]) st1
                                 /\ Inv (machine st1)
                                 /\ is_root (machine st1) = false)
          | _, _ => ok = false /\ after st [] st' /\ machine st' = machine st
          end).
Proof.
  intros Hinv Hinv0. unfold attempt_install.
  destruct pkg_manager as [p |];
    [destruct install_cmd as [install |] |];
    try (apply returns_bind, returns_print; intros st1 H1 Hm1;
         apply returns_ret; split; [discriminate | rewrite Hm1; auto]).
  set (cmd := (install ++ dedupe [] [] (map (fun b => pkg_name_for_bin b (Some p)) missing))%list).
  set (pre := match update_cmd with Some (u :: us) => [u :: us] | _ => [] end).
  apply returns_bind.
  apply (returns_weaken _ _ (fun _ st1 => after st pre st1 /\ Inv (machine st1))).
  { subst pre. destruct update_cmd as [[| u us] |]; cbn [list_truthy];
      try (apply returns_ret; split; [apply after_refl | exact Hinv0]).
    apply returns_bind, returns_print. intros st1 H1 Hm1.
    apply returns_bind, returns_run_cmd. intros [[rc out] err] st2 H2 Hm2.
    assert (Hi2 : Inv (machine st2)) by (rewrite Hm2; apply Hinv; rewrite Hm1; exact Hinv0).
    destruct (negb (rc =? 0)%Z).
    - apply returns_print. intros st3 H3 Hm3. split; [| rewrite Hm3; exact Hi2].
      apply (after_trans _ _ _ _ _ (after_trans _ _ _ _ _ H1 H2) H3).
    - apply returns_ret. split; [| exact Hi2]. apply (after_trans _ _ _ _ _ H1 H2). }
  intros _ st1 [Hpre Hi1].
  apply returns_bind, returns_print. intros st2 H2 Hm2.
  apply returns_bind, returns_run_cmd. intros [[rc out] err] st3 H3 Hm3.
  assert (Hi3 : Inv (machine st3)) by (rewrite Hm3; apply Hinv; rewrite Hm2; exact Hi1).
  assert (Hcmd : after st (pre ++ [cmd]) st3).
  { apply (after_trans _ _ _ _ _ Hpre).
    apply (after_trans _ _ _ [] [cmd] H2 H3). }
  apply returns_bind.
  apply (returns_weaken _ _ (fun _ st4 => after st3 [] st4 /\ machine st4 = machine st3)).
  { destruct (rc =? 0)%Z; apply returns_print; auto. }
  intros _ st4 [H4 Hm4].
  assert (Hi4 : Inv (machine st4)) by (rewrite Hm4; exact Hi3).
  assert (Hcmd4 : after st (pre ++ [cmd]) st4).
  { rewrite <- (app_nil_r (pre ++ [cmd])). apply (after_trans _ _ _ _ _ Hcmd H4). }
  apply returns_bind, returns_get_machine.
  destruct (snd (check_tools (machine st4))) as [| t ts] eqn:Hcheck.
  - apply returns_bind, returns_print. intros st5 H5 Hm5.
    apply returns_ret. split; [intros _; rewrite Hm5; exact Hcheck |].
    split; [rewrite Hm5; exact Hi4 |].
    left. rewrite <- (app_nil_r (pre ++ [cmd])). apply (after_trans _ _ _ _ _ Hcmd4 H5).
  - destruct (is_root (machine st4)) eqn:Hroot; cbn [negb].
    + apply returns_bind, returns_print. intros st5 H5 Hm5.
      apply returns_ret. split; [discriminate |].
      split; [rewrite Hm5; exact Hi4 |].
      left. rewrite <- (app_nil_r (pre ++ [cmd])). apply (after_trans _ _ _ _ _ Hcmd4 H5).
    + apply returns_bind, returns_print. intros st5 H5 Hm5.
      apply returns_bind, returns_run_cmd. intros [[rc' out'] err'] st6 H6 Hm6.
      assert (Hi6 : Inv (machine st6))
        by (rewrite Hm6; apply Hinv; rewrite Hm5; exact Hi4).
      assert (Hsudo : after st (pre ++ [cmd; "sudo" :: cmd]) st6).
      { change [cmd; "sudo" :: cmd] with ([cmd] ++ [] ++ ["sudo" :: cmd])%list.
        rewrite app_assoc.
        apply (after_trans _ _ _ _ _ Hcmd4).
        apply (after_trans _ _ _ _ _ H5 H6). }
      assert (Hlast : forall ok st7,
                 after st6 [] st7 -> machine st7 = machine st6 ->
                 (ok = true -> snd (check_tools (machine st6)) = []) ->
                 (ok = true -> snd (check_tools (machine st7)) = [])
                 /\ Inv (machine st7)
                 /\ (after st (pre ++ [cmd]) st7
                     \/ after st (pre ++ [cmd; "sudo" :: cmd]) st7
                        /\ (exists st1,
                               after st (pre ++ [cmd]) st1
                               /\ Inv (machine st1)
                               /\ is_root (machine st1) = false))).
      { intros ok st7 H7 Hm7 Hok. split; [rewrite Hm7; exact Hok |].
        split; [rewrite Hm7; exact Hi6 |].
        right. split; [| exists st4; auto].
        rewrite <- (app_nil_r (pre ++ [cmd; "sudo" :: cmd])).
        apply (after_trans _ _ _ _ _ Hsudo H7). }
      destruct (rc' =? 0)%Z.
      * apply returns_bind, returns_get_machine.
        destruct (snd (check_tools (machine st6))) as [| t' ts'] eqn:Hcheck'.
        -- apply returns_bind, returns_print. intros st7 H7 Hm7.
           apply returns_ret. apply Hlast; auto.
        -- apply returns_bind, returns_print. intros st7 H7 Hm7.
           apply returns_ret. apply Hlast; auto. discriminate.
      * apply returns_bind, returns_print. intros st7 H7 Hm7.
        apply returns_ret. apply Hlast; auto. discriminate.
Qed.

Lemma narrates_returns {A} (m : M A) (a : A) (st : St) (Q : A -> St -> Prop) :
  narrates_at st m a ->
  (forall st', after st [] st' -> machine st' = machine st -> Q a st') ->
  returns m st Q.
Proof.
  intros [tr [Hm Hq]] H. eexists a, _. split; [exact Hm |].
  apply H; [| reflexivity]. split; [reflexivity |].
  cbn [trace]. rewrite launches_app, Hq. reflexivity.
Qed.

Lemma print_manual_suggestions_narrates (pkg_manager : option string) (st : St) :
  narrates_at st (print_manual_suggestions pkg_manager) tt.
Proof.
  unfold print_manual_suggestions.
  eapply narrates_bind; [apply narrates_print | intros st1 _ _].
  eapply narrates_bind; [| intros; apply narrates_print].
  repeat match goal with
         | |- narrates_at _ (if ?b then _ else _) _ => destruct b
         end; narrate.
Qed.

(** What [ensure_tools] does, whatever the installer answers. *)
Lemma ensure_tools_run
    (os_spawn : list string -> Machine -> ProcResult * Machine) (st : St) :
  returns (ensure_tools os_spawn) st
    (fun ok st' =>
       stdin st' = stdin st
       /\ (ok = true <-> snd (check_tools (machine st')) = [])).
Proof.
  unfold ensure_tools.
  apply returns_bind, returns_print. intros st1 [Hi1 _] Hm1.
  apply returns_bind, returns_get_machine.
  destruct (check_tools (machine st1)) as [found missing] eqn:Hcheck.
  destruct missing as [| t ts].
  - apply returns_bind, returns_print. intros st2 [Hi2 _] Hm2.
    apply returns_ret. split; [congruence |].
    rewrite Hm2, Hcheck. cbn [snd]. tauto.
  - apply returns_bind, returns_print. intros st2 [Hi2 _] Hm2.
    destruct (detect_os (machine st1)) as [[[os_id pkg_manager] install_cmd] update_cmd].
    apply returns_bind, returns_print. intros st3 [Hi3 _] Hm3.
    apply returns_bind.
    apply (returns_weaken _ _
             (fun ok st4 => stdin st4 = stdin st3
                            /\ (ok = true -> snd (check_tools (machine st4)) = []))).
    { eapply returns_weaken;
        [apply (attempt_install_run os_spawn (fun _ => True)); auto |].
      intros ok st4 [Hok [_ Hshape]]. split; [| exact Hok].
      destruct pkg_manager; [destruct install_cmd |];
        try (destruct Hshape as [_ [[Hs _] _]]; exact Hs).
      destruct Hshape as [[Hs _] | [[Hs _] _]]; exact Hs. }
    intros ok st4 [Hi4 Hok].
    destruct ok.
    + apply returns_ret. split; [congruence |]. split; auto.
    + apply returns_bind, returns_get_machine.
      destruct (snd (check_tools (machine st4))) as [| t' ts'] eqn:Hcheck4.
      * apply returns_ret. split; [congruence |]. rewrite Hcheck4. tauto.
      * apply returns_bind, returns_print. intros st5 [Hi5 _] Hm5.
        apply returns_bind.
        apply (narrates_returns _ tt); [apply print_manual_suggestions_narrates |].
        intros st6 [Hi6 _] Hm6.
        apply returns_ret. split; [congruence |].
        rewrite Hm6, Hm5, Hcheck4. split; discriminate.
Qed.

(** X7.  [ensure_tools] always returns, reads nothing from the user, and
    its verdict is that of the last look at the search path: it returns
    [True] exactly when no required tool is missing on the machine it
    leaves, whatever the update and install commands did or reported. *)
Theorem ensure_tools_verdict
    (os_spawn : list string -> Machine -> ProcResult * Machine) (st : St) :
  exists ok st',
    ensure_tools os_spawn st = (Ok ok, st')
    /\ stdin st' = stdin st
    /\ (ok = true <-> forallb (shutil_which (machine st')) REQUIRED = true).
Proof.
  destruct (ensure_tools_run os_spawn st) as [ok [st' [Hrun [Hin Hok]]]].
  exists ok, st'. split; [exact Hrun |]. split; [exact Hin |].
  rewrite Hok. unfold check_tools. rewrite check_tools_from_filter. cbn [snd app].
  split.
  - intros Hnone. apply forallb_forall. intros b Hb.
    destruct (shutil_which (machine st') b) eqn:E; [reflexivity |].
    assert (Hf : In b (filter (fun b => negb (shutil_which (machine st') b)) REQUIRED))
      by (apply filter_In; rewrite E; auto).
    rewrite Hnone in Hf. destruct Hf.
  - intros Hall. rewrite forallb_forall in Hall.
    destruct (filter (fun b => negb (shutil_which (machine st') b)) REQUIRED)
      as [| b bs] eqn:E; [reflexivity |].
    assert (Hf : In b (b :: bs)) by (left; reflexivity).
    rewrite <- E in Hf. apply filter_In in Hf. destruct Hf as [Hb Hn].
    rewrite (Hall b Hb) in Hn. discriminate.
Qed.

(** X8.  With a tool missing and no package manager detected,
    [ensure_tools] returns [False] having only written to the console: no
    update, install or other command is started. *)
Theorem ensure_tools_no_manager
    (os_spawn : list string -> Machine -> ProcResult * Machine) (st : St) :
  forallb (shutil_which (machine st)) REQUIRED = false ->
  detect_os (machine st) = undetected ->
  narrates_at st (ensure_tools os_spawn) false.
Proof.
  intros Hmiss Hdet. unfold ensure_tools.
  eapply narrates_bind; [apply narrates_print | intros st1 Hm1 _].
  eapply narrates_bind; [apply narrates_get_machine | intros st2 Hm2 _].
  rewrite Hm1.
  destruct (check_tools (machine st)) as [found missing] eqn:Hcheck.
  assert (Hsnd : snd (check_tools (machine st)) = missing) by (rewrite Hcheck; reflexivity).
  destruct missing as [| t ts].
  { exfalso. unfold check_tools in Hsnd. rewrite check_tools_from_filter in Hsnd.
    cbn [snd app] in Hsnd.
    assert (Hall : forallb (shutil_which (machine st)) REQUIRED = true).
    { apply forallb_forall. intros b Hb.
      destruct (shutil_which (machine st) b) eqn:E; [reflexivity |].
      assert (Hf : In b (filter (fun b => negb (shutil_which (machine st) b)) REQUIRED))
        by (apply filter_In; rewrite E; auto).
      rewrite Hsnd in Hf. destruct Hf. }
    congruence. }
  eapply narrates_bind; [apply narrates_print | intros st3 Hm3 _].
  rewrite Hdet. unfold undetected.
  eapply narrates_bind; [apply narrates_print | intros st4 Hm4 _].
  eapply narrates_bind.
  { unfold attempt_install. narrate. }
  intros st5 Hm5 _. cbv iota.
  eapply narrates_bind; [apply narrates_get_machine | intros st6 Hm6 _].
  rewrite Hm5, Hm4, Hm3, Hm2, Hm1, Hsnd.
  eapply narrates_bind; [apply narrates_print | intros st7 Hm7 _].
  eapply narrates_bind; [apply print_manual_suggestions_narrates | intros st8 Hm8 _].
  apply narrates_ret.
Qed.

Lemma ensure_tools_no_manager_witness :
  narrates_at (typing (box [] []) []) (ensure_tools quiet_spawn) false.
Proof.
  apply ensure_tools_no_manager; reflexivity.
Defined.

(** X9.  With a manager and an install command, [attempt_install] always
    returns and starts at most three commands, in this order: the update
    command if there is one, the install command followed by the package
    names without repetition, and then at most one retry, which is that same
    install command with [sudo] put in front. *)
Theorem attempt_install_commands
    (os_spawn : list string -> Machine -> ProcResult * Machine)
    (missing : list string) (p : string) (install : list string)
    (update_cmd : option (list string)) (st : St) :
  returns (attempt_install os_spawn missing (Some p) (Some install) update_cmd) st
    (fun _ st' =>
       let cmd := (install
                   ++ dedupe [] [] (map (fun b => pkg_name_for_bin b (Some p)) missing))%list in
       let pre := match update_cmd with
                  | Some (u :: us) => [u :: us]
                  | _ => []
                  end in
       after st (pre ++ [cmd]) st' \/ after st (pre ++ [cmd; "sudo" :: cmd]) st').
Proof.
  eapply returns_weaken;
    [apply (attempt_install_run os_spawn (fun _ => True)); auto |].
  intros ok st' [_ [_ [H | [H _]]]]; [left | right]; exact H.
Qed.

(** X10.  Run as root, on a system where child processes leave the
    effective user as it is, [attempt_install] never retries with [sudo]:
    it starts the update command, if any, and the install command, once. *)
Theorem attempt_install_as_root
    (os_spawn : list string -> Machine -> ProcResult * Machine)
    (missing : list string) (p : string) (install : list string)
    (update_cmd : option (list string)) (st : St) :
  (forall argv m, is_root m = true -> is_root (snd (os_spawn argv m)) = true) ->
  is_root (machine st) = true ->
  returns (attempt_install os_spawn missing (Some p) (Some install) update_cmd) st
    (fun _ st' =>
       let cmd := (install
                   ++ dedupe [] [] (map (fun b => pkg_name_for_bin b (Some p)) missing))%list in
       let pre := match update_cmd with
                  | Some (u :: us) => [u :: us]
                  | _ => []
                  end in
       after st (pre ++ [cmd]) st').
Proof.
  intros Hkeep Hroot.
  eapply returns_weaken;
    [apply (attempt_install_run os_spawn (fun m => is_root m = true)); auto |].
  intros ok st' [_ [_ [H | [_ [st1 [_ [Hr Hn]]]]]]]; [exact H | congruence].
Qed.

Lemma attempt_install_as_root_witness :
  returns (attempt_install quiet_spawn ["nmap"; "ndiff"] (Some "apt")
                           (Some ["apt-get"; "install"; "-y"])
                           (Some ["apt-get"; "update"; "-y"]))
    (typing root_box [])
    (fun _ st' =>
       after (typing root_box [])
             [["apt-get"; "update"; "-y"]; ["apt-get"; "install"; "-y"; "nmap"]] st').
Proof.
  apply (attempt_install_as_root quiet_spawn ["nmap"; "ndiff"] "apt"
           ["apt-get"; "install"; "-y"] (Some ["apt-get"; "update"; "-y"])
           (typing root_box [])).
  - intros argv m H. exact H.
  - reflexivity.
Defined.

(** X11.  Started with [--test-deps], the program runs the dependency
    check and nothing else: it reads no input, and it ends by [sys.exit]
    with status 0 when no required tool is missing on the machine it
    leaves, and with status 2 otherwise. *)
Theorem entry_test_deps
    (os_spawn : list string -> Machine -> ProcResult * Machine)
    (os_makedirs : string -> Machine -> string + Machine)
    (prog : string) (more : list string) (fuel : nat) (st : St) :
  exists code st',
    entry os_spawn os_makedirs (prog :: "--test-deps" :: more) fuel st
    = (Raise (SystemExit code), st')
    /\ stdin st' = stdin st
    /\ (snd (check_tools (machine st')) = [] -> code = 0%Z)
    /\ (snd (check_tools (machine st')) <> [] -> code = 2%Z).
Proof.
  destruct (ensure_tools_run os_spawn st) as [ok [st' [Hrun [Hin Hok]]]].
  exists (if ok then 0%Z else 2%Z), st'.
  unfold entry. cbn [List.length Nat.ltb Nat.leb nth andb].
  rewrite String.eqb_refl. unfold bind. rewrite Hrun.
  split; [reflexivity |]. split; [exact Hin |].
  destruct ok; split; intros H; try reflexivity.
  - destruct H. apply Hok. reflexivity.
  - apply Hok in H. discriminate.
Qed.

(** *** The interactive start-up check *)

Lemma check_tool_installed_narrates (tool : string) (st : St) :
  narrates_at st (check_tool_installed tool) (shutil_which (machine st) tool).
Proof.
  unfold check_tool_installed, shutil_which.
  eapply narrates_bind; [apply narrates_print_end | intros st1 Hm1 _].
  eapply narrates_bind; [apply narrates_get_machine | intros st2 Hm2 _].
  rewrite Hm1. destruct (which (machine st) tool); narrate.
Qed.

Lemma install_dependency_unsupported
    (os_spawn : list string -> Machine -> ProcResult * Machine)
    (tool : string) (st : St) :
  install_plan (machine st) tool = None ->
  narrates_at st (install_dependency os_spawn tool) false.
Proof.
  intros Hplan. unfold install_dependency.
  eapply narrates_bind; [apply narrates_get_machine | intros st1 Hm1 _].
  rewrite Hplan. narrate.
Qed.

Lemma install_plan_unsupported (m : Machine) (tool : string) :
  shutil_which m "apt-get" = false ->
  shutil_which m "dnf" = false ->
  shutil_which m "yum" = false ->
  install_plan m tool = None.
Proof. intros H1 H2 H3. unfold install_plan. rewrite H1, H2, H3. reflexivity. Qed.

Lemma setup_from_unsupported
    (os_spawn : list string -> Machine -> ProcResult * Machine)
    (dependencies : list string) :
  forall all_deps_met st,
    shutil_which (machine st) "apt-get" = false ->
    shutil_which (machine st) "dnf" = false ->
    shutil_which (machine st) "yum" = false ->
    narrates_at st (setup_from os_spawn dependencies all_deps_met)
                (all_deps_met && forallb (shutil_which (machine st)) dependencies).
Proof.
  induction dependencies as [| tool rest IH]; intros all_deps_met st H1 H2 H3;
    cbn [setup_from forallb].
  - rewrite andb_true_r. apply narrates_ret.
  - eapply narrates_bind; [apply check_tool_installed_narrates | intros st1 Hm1 _].
    destruct (shutil_which (machine st) tool); cbn [andb].
    + rewrite <- Hm1. apply IH; rewrite Hm1; assumption.
    + eapply narrates_bind.
      * apply install_dependency_unsupported, install_plan_unsupported;
          rewrite Hm1; assumption.
      * intros st2 Hm2 _. cbn [negb]. rewrite andb_false_r.
        replace false with (false && forallb (shutil_which (machine st2)) rest)
          by reflexivity.
        apply IH; rewrite Hm2, Hm1; assumption.
Qed.

Lemma setup_from_present
    (os_spawn : list string -> Machine -> ProcResult * Machine)
    (dependencies : list string) :
  forall all_deps_met st,
    forallb (shutil_which (machine st)) dependencies = true ->
    narrates_at st (setup_from os_spawn dependencies all_deps_met) all_deps_met.
Proof.
  induction dependencies as [| tool rest IH]; intros all_deps_met st Hall;
    cbn [setup_from forallb] in *.
  - apply narrates_ret.
  - apply andb_true_iff in Hall. destruct Hall as [Htool Hrest].
    eapply narrates_bind; [apply check_tool_installed_narrates | intros st1 Hm1 _].
    rewrite Htool. apply IH. rewrite Hm1. exact Hrest.
Qed.

(** X12.  With [nmap], [ndiff] and [xsltproc] all on the search path,
    [setup_environment] returns having only written to the console: it asks
    nothing, installs nothing and does not exit. *)
Theorem setup_environment_all_present
    (os_spawn : list string -> Machine -> ProcResult * Machine) (st : St) :
  forallb (shutil_which (machine st)) REQUIRED = true ->
  narrates_at st (setup_environment os_spawn) tt.
Proof.
  intros Hall. unfold setup_environment.
  eapply narrates_bind; [apply narrates_print | intros st1 Hm1 _].
  eapply narrates_bind.
  - apply setup_from_present. rewrite Hm1. exact Hall.
  - intros st2 Hm2 _. cbn [negb]. apply narrates_print.
Qed.

Lemma setup_environment_all_present_witness :
  narrates_at (typing (box [] REQUIRED) []) (setup_environment quiet_spawn) tt.
Proof. apply setup_environment_all_present. reflexivity. Defined.

(** X13.  With a required tool missing and none of [apt-get], [dnf],
    [yum] on the search path, [setup_environment] ends the program with
    exit status 1 without asking anything or starting any process; this is
    so on a machine whose manager is [pacman] or [pkg], which [detect_os]
    knows and [install_dependency] does not. *)
Theorem setup_environment_unsupported
    (os_spawn : list string -> Machine -> ProcResult * Machine) (st : St) :
  forallb (shutil_which (machine st)) REQUIRED = false ->
  shutil_which (machine st) "apt-get" = false ->
  shutil_which (machine st) "dnf" = false ->
  shutil_which (machine st) "yum" = false ->
  exists tr,
    setup_environment os_spawn st
    = (Raise (SystemExit 1), mkSt (machine st) (stdin st) (trace st ++ tr)%list)
    /\ launches tr = [].
Proof.
  intros Hmiss H1 H2 H3. unfold setup_environment.
  destruct (narrates_print st (Colors.BOLD ++ "--- Checking Dependencies ---" ++ Colors.ENDC))
    as [tr1 [Hp1 Hq1]].
  unfold bind at 1. rewrite Hp1.
  set (st1 := mkSt (machine st) (stdin st) (trace st ++ tr1)%list).
  destruct (setup_from_unsupported os_spawn ["nmap"; "ndiff"; "xsltproc"] true st1 H1 H2 H3)
    as [tr2 [Hp2 Hq2]].
  unfold bind at 1. rewrite Hp2.
  change (forallb (shutil_which (machine st1)) ["nmap"; "ndiff"; "xsltproc"])
    with (forallb (shutil_which (machine st)) REQUIRED).
  rewrite Hmiss. cbn [andb negb].
  unfold bind, print, write, raise. subst st1. cbn [machine stdin trace].
  eexists. rewrite <- !app_assoc. split; [reflexivity |].
  rewrite !launches_app, Hq1, Hq2. reflexivity.
Qed.

Lemma setup_environment_unsupported_witness :
  exists tr,
    setup_environment quiet_spawn (typing (box [] ["pacman"; "nmap"]) ["y"])
    = (Raise (SystemExit 1), mkSt (box [] ["pacman"; "nmap"]) ["y"] ([] ++ tr)%list)
    /\ launches tr = [].
Proof.
  apply (setup_environment_unsupported quiet_spawn
           (typing (box [] ["pacman"; "nmap"]) ["y"])); reflexivity.
Defined.

(** X14.  [install_dependency] starts nothing without the user's consent:
    unless the next line typed is [y] or [yes], in any letter case, it starts
    no process, leaves the machine as it is and does not return [True]. *)
Theorem install_dependency_needs_consent
    (os_spawn : list string -> Machine -> ProcResult * Machine)
    (tool : string) (st : St) :
  (forall answer rest,
      stdin st = answer :: rest -> Py.mem (Py.lower answer) ["y"; "yes"] = false) ->
  launches (trace (snd (install_dependency os_spawn tool st))) = launches (trace st)
  /\ machine (snd (install_dependency os_spawn tool st)) = machine st
  /\ fst (install_dependency os_spawn tool st) <> Ok true.
Proof.
  intros Hno. destruct st as [m inp tr]. cbn [stdin] in Hno.
  unfold install_dependency, bind, get_machine. cbn [machine stdin trace].
  destruct (install_plan m tool) as [[[[manager package] update_cmd] prefix] |].
  - destruct (Py.otruthy package); cbn [negb].
    + unfold input. cbn [machine stdin trace].
      destruct inp as [| answer rest].
      * cbn [fst snd machine trace]. rewrite launches_app, app_nil_r.
        repeat split; discriminate.
      * rewrite (Hno answer rest eq_refl). cbn [negb].
        unfold print, write, ret. cbn [fst snd machine stdin trace].
        rewrite !launches_app, !app_nil_r. repeat split; discriminate.
    + unfold print, write, ret. cbn [fst snd machine stdin trace].
      rewrite !launches_app, !app_nil_r. repeat split; discriminate.
  - unfold print, write, ret. cbn [fst snd machine stdin trace].
    rewrite !launches_app, !app_nil_r. repeat split; discriminate.
Qed.

Lemma install_dependency_needs_consent_witness :
  launches (trace (snd (install_dependency quiet_spawn "nmap"
                                           (typing (box [] ["apt-get"]) ["no"]))))
  = []
  /\ machine (snd (install_dependency quiet_spawn "nmap"
                                      (typing (box [] ["apt-get"]) ["no"])))
     = box [] ["apt-get"]
  /\ fst (install_dependency quiet_spawn "nmap" (typing (box [] ["apt-get"]) ["no"]))
     <> Ok true.
Proof.
  apply (install_dependency_needs_consent quiet_spawn "nmap"
           (typing (box [] ["apt-get"]) ["no"])).
  intros answer rest H. injection H as <- _. reflexivity.
Defined.

(** *** Exceptions the main loop catches *)

Section Safe.

Context {A B : Type}.






End Safe.
























(** *** What a turn of the main loop does to its three variables *)

Lemma bind_result {A B} (m : M A) (k : A -> M B) (st : St) (b : B) (st' : St) :
  bind m k st = (Ok b, st') ->
  exists a st1, m st = (Ok a, st1) /\ k a st1 = (Ok b, st').
Proof.
  unfold bind. intros H. destruct (m st) as [[a | e] st1]; [| discriminate H].
  exists a, st1. auto.
Qed.

Lemma bind_const {A B} (m : M A) (b0 b : B) (st st' : St) :
  bind m (fun _ => ret b0) st = (Ok b, st') -> b = b0.
Proof.
  intros H. apply bind_result in H. destruct H as [a [st1 [_ H]]].
  injection H as <- _. reflexivity.
Qed.

Lemma set_session_result
    (os_makedirs : string -> Machine -> string + Machine)
    (st : St) (o : option string) (st' : St) :
  set_session os_makedirs st = (Ok o, st') ->
  o = None
  \/ exists line rest,
      stdin st = line :: rest /\ o = Some (Py.strip line)
      /\ Py.truthy (Py.strip line) = true
      /\ exists m', os_makedirs (Py.path_join SESSIONS_DIR (Py.strip line)) (machine st)
                    = inr m'.
Proof.
  unfold set_session. intros H.
  apply bind_result in H. destruct H as [line [st1 [Hin H]]].
  unfold input in Hin. destruct (stdin st) as [| l rest] eqn:Hstdin; [discriminate Hin |].
  injection Hin as <- <-.
  destruct (Py.truthy (Py.strip l)) eqn:Ht; cbn [negb] in H.
  - unfold try_except, bind, makedirs in H. cbn [machine stdin trace] in H.
    destruct (os_makedirs (Py.path_join SESSIONS_DIR (Py.strip l)) (machine st))
      as [msg | m'] eqn:Hmk.
    + cbn [is_Exception] in H. unfold print, write, ret in H.
      injection H as <- _. left. reflexivity.
    + unfold print, write, ret in H. injection H as <- _.
      right. exists l, rest. repeat split; auto. exists m'. exact Hmk.
  - apply bind_const in H. left. exact H.
Qed.

(** How the body of a turn can end. *)
Lemma main_body_outcome
    (os_spawn : list string -> Machine -> ProcResult * Machine)
    (os_makedirs : string -> Machine -> string + Machine)
    (s : AppState) (st : St) (c : Ctl) (st' : St) :
  main_body os_spawn os_makedirs s st = (Ok c, st') ->
  exists line rest,
    stdin st = line :: rest
    /\ (c = Break
        \/ c = Continue s
        \/ (Py.strip line = "1"
            /\ exists t, set_nonempty t
                         /\ c = Continue (mkApp t (current_ports s) (current_session s)))
        \/ (Py.strip line = "2"
            /\ exists p, set_nonempty p
                         /\ c = Continue (mkApp (current_target s) p (current_session s)))
        \/ (Py.strip line = "8"
            /\ exists n, set_nonempty n
                         /\ c = Continue (mkApp (current_target s) (current_ports s) n))).
Proof.
  unfold main_body. cbv zeta. intros H.
  apply bind_result in H. destruct H as [[] [st1 [Hmenu H]]].
  destruct (show_menu_narrates (current_target s) (current_ports s) (current_session s) st)
    as [tr [Hmenu' _]].
  rewrite Hmenu' in Hmenu. injection Hmenu as <-.
  apply bind_result in H. destruct H as [line [st2 [Hin H]]].
  unfold input in Hin. cbn [machine stdin trace] in Hin.
  destruct (stdin st) as [| l rest]; [discriminate Hin |].
  injection Hin as <- <-. exists l, rest. split; [reflexivity |].
  destruct (Py.strip l =? "1") eqn:E1.
  { apply String.eqb_eq in E1. right. right. left. split; [exact E1 |].
    apply bind_result in H. destruct H as [t [st3 [_ H]]].
    destruct (Py.truthy (Py.strip t)) eqn:Ht; cbn [negb] in H.
    - injection H as <- _. exists (Some (Py.strip t)). split; [| reflexivity].
      intros v Hv. injection Hv as <-. exact Ht.
    - apply bind_const in H. exists None. split; [intros v Hv; discriminate Hv | exact H]. }
  destruct (Py.strip l =? "2") eqn:E2.
  { apply String.eqb_eq in E2. right. right. right. left. split; [exact E2 |].
    apply bind_result in H. destruct H as [p [st3 [_ H]]].
    injection H as <- _.
    destruct (Py.truthy (Py.strip p)) eqn:Hp; eexists; (split; [| reflexivity]).
    - intros v Hv. injection Hv as <-. exact Hp.
    - intros v Hv. discriminate Hv. }
  destruct (Py.strip l =? "8") eqn:E8.
  { apply String.eqb_eq in E8. right. right. right. right. split; [exact E8 |].
    apply bind_result in H. destruct H as [n [st3 [Hset H]]].
    injection H as <- _. exists n. split; [| reflexivity].
    apply set_session_result in Hset.
    destruct Hset as [-> | [line [rest' [_ [-> [Ht _]]]]]].
    - intros v Hv. discriminate Hv.
    - intros v Hv. injection Hv as <-. exact Ht. }
  repeat match type of H with
         | (if ?b then _ else _) _ = _ => destruct b
         end;
    try (apply bind_const in H; auto; fail).
  apply bind_result in H. destruct H as [cmd [st3 [_ H]]].
  apply bind_const in H. auto.
Qed.



(** X17.  No variable of the main loop is ever set to the empty string:
    if target, ports and session are each unset or non-empty before the
    loop runs, they still are after any number of turns. *)
Theorem main_loop_nonempty
    (os_spawn : list string -> Machine -> ProcResult * Machine)
    (os_makedirs : string -> Machine -> string + Machine)
    (fuel : nat) :
  forall (s : AppState) (st : St) (s' : AppState) (st' : St),
    wf_state s ->
    main_loop os_spawn os_makedirs fuel s st = (Ok (Some s'), st') ->
    wf_state s'.
Proof.
  induction fuel as [| fuel IH]; intros s st s' st' Hwf H; cbn [main_loop] in H.
  - injection H as <- _. exact Hwf.
  - apply bind_result in H. destruct H as [c [st1 [Hstep H]]].
    destruct c as [s1 |]; [| discriminate H].
    apply (IH s1 st1 s' st'); [| exact H].
    unfold main_step, try_except in Hstep.
    destruct (main_body os_spawn os_makedirs s st) as [[c1 | e] st2] eqn:E.
    + injection Hstep as -> <-.
      apply main_body_outcome in E. destruct E as [line [rest [_ Hc]]].
      destruct Hwf as [Ht [Hp Hn]].
      destruct Hc as [Hc | [Hc | [[_ [t [Hne Hc]]] | [[_ [p [Hne Hc]]] | [_ [n [Hne Hc]]]]]]];
        try discriminate Hc; injection Hc as ->; repeat split; assumption.
    + destruct (is_Exception e); [| discriminate Hstep].
      apply bind_const in Hstep. injection Hstep as ->. exact Hwf.
Qed.

Lemma main_loop_nonempty_witness :
  wf_state (mkApp (Some "10.0.0.5") None None).
Proof.
  eapply (main_loop_nonempty quiet_spawn ok_makedirs 1 initial_state
            (typing (web_box []) ["1"; " 10.0.0.5 "])).
  - repeat split; intros v H; discriminate H.
  - vm_compute. reflexivity.
Defined.

(** *** Choices of the main menu *)

(** The start of a turn: the menu is shown and a line is read. *)
Lemma main_body_reads
    (os_spawn : list string -> Machine -> ProcResult * Machine)
    (os_makedirs : string -> Machine -> string + Machine)
    (s : AppState) (st : St) :
  exists tr,
    launches tr = []
    /\ forall k : string -> M Ctl,
        bind (show_menu (current_target s) (current_ports s) (current_session s))
             (fun _ => bind (input (Colors.BOLD ++ "Enter your choice: " ++ Colors.ENDC ++ " ")) k)
             st
        = match stdin st with
          | [] => (Raise EOFError, mkSt (machine st) [] (trace st ++ tr)%list)
          | line :: rest => k line (mkSt (machine st) rest (trace st ++ tr)%list)
          end.
Proof.
  destruct (show_menu_narrates (current_target s) (current_ports s) (current_session s) st)
    as [tr [Hmenu Hq]].
  exists (tr ++ [Write (Colors.BOLD ++ "Enter your choice: " ++ Colors.ENDC ++ " ")])%list.
  split; [rewrite launches_app, Hq; reflexivity |].
  intros k. unfold bind at 1. rewrite Hmenu. unfold bind, input.
  cbn [machine stdin trace]. rewrite <- app_assoc.
  destruct (stdin st); reflexivity.
Qed.

(** X18.  A choice that needs a target ([3] to [7] and [11]) made while
    no target is set is refused: the turn starts no process, reads nothing
    beyond the choice, and leaves target, ports and session as they were. *)
Theorem main_step_needs_target
    (os_spawn : list string -> Machine -> ProcResult * Machine)
    (os_makedirs : string -> Machine -> string + Machine)
    (s : AppState) (st : St) (line : string) (rest : list string) :
  stdin st = line :: rest ->
  In (Py.strip line) ["3"; "4"; "5"; "6"; "7"; "11"] ->
  Py.otruthy (current_target s) = false ->
  exists tr,
    main_step os_spawn os_makedirs s st
    = (Ok (Continue s), mkSt (machine st) rest (trace st ++ tr)%list)
    /\ launches tr = [].
Proof.
  intros Hin Hchoice Hnone.
  destruct (main_body_reads os_spawn os_makedirs s st) as [tr [Hq Hread]].
  unfold main_step, try_except, main_body. cbv zeta. rewrite Hread, Hin.
  cbn [In] in Hchoice.
  repeat (destruct Hchoice as [<- | Hchoice];
          [cbn [String.eqb Ascii.eqb Bool.eqb andb Py.mem existsb orb];
           rewrite Hnone; cbn [negb andb];
           unfold bind, print, write, ret; cbn [machine stdin trace];
           eexists; rewrite <- app_assoc; split;
           [reflexivity | rewrite launches_app, Hq; reflexivity] |]).
  destruct Hchoice.
Qed.

Lemma main_step_needs_target_witness :
  exists tr,
    main_step quiet_spawn ok_makedirs (mkApp None None (Some "web"))
              (typing (web_box []) ["6"; "0"])
    = (Ok (Continue (mkApp None None (Some "web"))),
       mkSt (web_box []) ["0"] ([] ++ tr)%list)
    /\ launches tr = [].
Proof.
  apply (main_step_needs_target quiet_spawn ok_makedirs (mkApp None None (Some "web"))
           (typing (web_box []) ["6"; "0"]) "6" ["0"]).
  - reflexivity.
  - cbn. tauto.
  - reflexivity.
Defined.

Lemma main_step_eof
    (os_spawn : list string -> Machine -> ProcResult * Machine)
    (os_makedirs : string -> Machine -> string + Machine)
    (s : AppState) (st : St) :
  stdin st = [] ->
  exists tr,
    main_step os_spawn os_makedirs s st
    = (Ok (Continue s), mkSt (machine st) [] (trace st ++ tr)%list)
    /\ launches tr = [].
Proof.
  intros Hin.
  destruct (main_body_reads os_spawn os_makedirs s st) as [tr [Hq Hread]].
  unfold main_step, try_except, main_body. cbv zeta. rewrite Hread, Hin.
  cbn [is_Exception]. unfold bind, print, write, ret. cbn [machine stdin trace].
  eexists. rewrite <- app_assoc. split; [reflexivity |].
  rewrite launches_app, Hq. reflexivity.
Qed.

(** X19.  Once the input is exhausted the main loop does not leave by
    itself: every further turn catches the end-of-file error, writes to the
    console, starts nothing and keeps the three variables, so after any
    number of turns the loop is still running. *)
Theorem main_loop_eof
    (os_spawn : list string -> Machine -> ProcResult * Machine)
    (os_makedirs : string -> Machine -> string + Machine)
    (fuel : nat) (s : AppState) :
  forall st,
    stdin st = [] ->
    exists tr,
      main_loop os_spawn os_makedirs fuel s st
      = (Ok (Some s), mkSt (machine st) [] (trace st ++ tr)%list)
      /\ launches tr = [].
Proof.
  induction fuel as [| fuel IH]; intros st Hin; cbn [main_loop].
  - exists []. unfold ret. rewrite app_nil_r. destruct st. cbn in Hin. subst.
    split; reflexivity.
  - destruct (main_step_eof os_spawn os_makedirs s st Hin) as [tr1 [Hstep Hq1]].
    unfold bind. rewrite Hstep.
    destruct (IH (mkSt (machine st) [] (trace st ++ tr1)%list) eq_refl) as [tr2 [Hloop Hq2]].
    rewrite Hloop. cbn [machine stdin trace].
    exists (tr1 ++ tr2)%list. rewrite app_assoc. split; [reflexivity |].
    rewrite launches_app, Hq1, Hq2. reflexivity.
Qed.

Lemma main_loop_eof_witness :
  exists tr,
    main_loop quiet_spawn ok_makedirs 3 initial_state (typing (web_box []) [])
    = (Ok (Some initial_state), mkSt (web_box []) [] ([] ++ tr)%list)
    /\ launches tr = [].
Proof.
  apply (main_loop_eof quiet_spawn ok_makedirs 3 initial_state (typing (web_box []) [])).
  reflexivity.
Defined.



(** *** Selections that are in range *)

Lemma index_in_range {A} (l : list A) (n : Z) (a : A) :
  (1 <= n)%Z ->
  nth_error l (Z.to_nat (n - 1)) = Some a ->
  Py.index l (n - 1) = Some a.
Proof.
  intros Hn Hnth. unfold Py.index.
  destruct (Z.leb_spec 0 (n - 1)); [exact Hnth | lia].
Qed.







(** *** The advanced menu *)

Lemma last_cons_ne {A} (x : A) (l : list A) (d : A) :
  l <> [] -> last (x :: l) d = last l d.
Proof. destruct l; [congruence | reflexivity]. Qed.

Lemma snoc_ne {A} (l : list A) (t : A) : (l ++ [t])%list <> [].
Proof. destruct l; discriminate. Qed.

(** The last element of a list written as conses over [_ ++ [t]]. *)
Ltac last_of_snoc :=
  repeat (rewrite last_cons_ne; [| first [discriminate | apply snoc_ne]]);
  apply last_last.

(** X24.  Every vector the advanced menu builds is an [nmap] command,
    with or without [sudo] in front, whose last argument is the target;
    building it starts nothing. *)
Theorem advanced_command_shape
    (choice target : string) (ports : option string) (st : St)
    (command : list string) (st' : St) :
  advanced_command choice target ports st = (Ok (Some command), st') ->
  (exists args, command = "nmap" :: args \/ command = "sudo" :: "nmap" :: args)
  /\ last command EmptyString = target
  /\ launches (trace st') = launches (trace st)
  /\ machine st' = machine st.
Proof.
  unfold advanced_command, bind, ret, print, write, input.
  cbn [machine stdin trace]. intros H.
  repeat match type of H with
         | context [if (choice =? ?c) then _ else _] => destruct (choice =? c)
         end;
    repeat match type of H with
           | context [match stdin st with _ => _ end] =>
               destruct (stdin st) as [| line rest]
           | context [if ?b then _ else _] => destruct b
           end;
    try discriminate H;
    injection H as <- <-; cbn [machine stdin trace];
    (split; [eexists; first [left; reflexivity | right; reflexivity] |]);
    (split; [first [reflexivity | rewrite ?app_assoc; last_of_snoc] |]);
    (split; [| reflexivity]);
    rewrite ?launches_app; cbn [launches]; rewrite ?app_nil_r; reflexivity.
Qed.

Lemma advanced_command_shape_witness :
  (exists args,
      ["sudo"; "nmap"; "-O"; "-T4"; "-p"; "22"; "10.0.0.5"] = "nmap" :: args
      \/ ["sudo"; "nmap"; "-O"; "-T4"; "-p"; "22"; "10.0.0.5"] = "sudo" :: "nmap" :: args)
  /\ last ["sudo"; "nmap"; "-O"; "-T4"; "-p"; "22"; "10.0.0.5"] EmptyString = "10.0.0.5"
  /\ launches (trace (typing (web_box []) [])) = launches (trace (typing (web_box []) []))
  /\ machine (typing (web_box []) []) = machine (typing (web_box []) []).
Proof.
  apply (advanced_command_shape "20" "10.0.0.5" (Some "22") (typing (web_box []) [])).
  reflexivity.
Defined.

(** X25.  The exploit scan (choice [15]) is not run unless the answer to
    its warning is [yes], in any letter case, and the idle scan (choice [5])
    is not run when no zombie host is given: the turn of the advanced menu
    then starts nothing and goes on. *)
Theorem show_advanced_scans_turn_declined
    (os_spawn : list string -> Machine -> ProcResult * Machine)
    (target : string) (ports session : option string)
    (st : St) (choice answer : string) (rest : list string) :
  stdin st = choice :: answer :: rest ->
  (choice = "15" /\ Py.lower answer <> "yes") \/ (choice = "5" /\ answer = EmptyString) ->
  exists st',
    show_advanced_scans_turn os_spawn target ports session st = (Ok false, st')
    /\ stdin st' = rest
    /\ machine st' = machine st
    /\ launches (trace st') = launches (trace st).
Proof.
  intros Hin Hcase. unfold show_advanced_scans_turn.
  assert (Hhead : exists tr,
             launches tr = []
             /\ forall k : string -> M bool,
                 bind (print (nl ++ Colors.HEADER ++ Colors.BOLD
                              ++ "--- Advanced Scans Menu (Target: " ++ target ++ ") ---"
                              ++ Colors.ENDC))
                   (fun _ =>
                      bind (if Py.otruthy ports
                            then print (Colors.GREEN ++ Colors.BOLD ++ "Using Custom Ports: "
                                        ++ str_of_opt ports ++ Colors.ENDC)
                            else ret tt)
                        (fun _ =>
                           bind (print_all ADVANCED_MENU)
                             (fun _ =>
                                bind (input (Colors.BOLD ++ "Select an advanced scan: "
                                             ++ Colors.ENDC)) k))) st
                 = k choice (mkSt (machine st) (answer :: rest) (trace st ++ tr)%list)).
  { assert (Hn : narrates_at st
                   (bind (print (nl ++ Colors.HEADER ++ Colors.BOLD
                                 ++ "--- Advanced Scans Menu (Target: " ++ target ++ ") ---"
                                 ++ Colors.ENDC))
                      (fun _ =>
                         bind (if Py.otruthy ports
                               then print (Colors.GREEN ++ Colors.BOLD ++ "Using Custom Ports: "
                                           ++ str_of_opt ports ++ Colors.ENDC)
                               else ret tt)
                           (fun _ => print_all ADVANCED_MENU))) tt)
      by (destruct (Py.otruthy ports); narrate).
    destruct Hn as [tr [Hn Hq]].
    exists (tr ++ [Write (Colors.BOLD ++ "Select an advanced scan: " ++ Colors.ENDC)])%list.
    split; [rewrite launches_app, Hq; reflexivity |].
    intros k. unfold bind in Hn |- *.
    destruct (print (nl ++ Colors.HEADER ++ Colors.BOLD
                     ++ "--- Advanced Scans Menu (Target: " ++ target ++ ") ---"
                     ++ Colors.ENDC) st) as [[[] | e] st1]; [| discriminate Hn].
    destruct ((if Py.otruthy ports
               then print (Colors.GREEN ++ Colors.BOLD ++ "Using Custom Ports: "
                           ++ str_of_opt ports ++ Colors.ENDC)
               else ret tt) st1) as [[[] | e] st2]; [| discriminate Hn].
    rewrite Hn. unfold input. cbn [machine stdin trace]. rewrite Hin, <- app_assoc.
    reflexivity. }
  destruct Hhead as [tr [Hq Hhead]]. rewrite Hhead.
  destruct Hcase as [[-> Hno] | [-> ->]].
  - cbn [String.eqb Ascii.eqb Bool.eqb andb].
    unfold advanced_command.
    cbn [String.eqb Ascii.eqb Bool.eqb andb].
    unfold bind, print, write, input, ret. cbn [machine stdin trace].
    apply String.eqb_neq in Hno. rewrite Hno.
    eexists. split; [reflexivity |]. cbn [machine stdin trace].
    repeat split. rewrite !launches_app, Hq. cbn [launches]. rewrite !app_nil_r. reflexivity.
  - cbn [String.eqb Ascii.eqb Bool.eqb andb].
    unfold advanced_command.
    cbn [String.eqb Ascii.eqb Bool.eqb andb].
    unfold bind, print, write, input, ret. cbn [machine stdin trace Py.truthy String.eqb negb].
    eexists. split; [reflexivity |]. cbn [machine stdin trace].
    repeat split. rewrite !launches_app, Hq. cbn [launches]. rewrite !app_nil_r. reflexivity.
Qed.

Lemma show_advanced_scans_turn_declined_witness :
  exists st',
    show_advanced_scans_turn quiet_spawn "10.0.0.5" None (Some "web")
                             (typing (web_box []) ["15"; "y"; "0"])
    = (Ok false, st')
    /\ stdin st' = ["0"]
    /\ machine st' = web_box []
    /\ launches (trace st') = [].
Proof.
  apply (show_advanced_scans_turn_declined quiet_spawn "10.0.0.5" None (Some "web")
           (typing (web_box []) ["15"; "y"; "0"]) "15" "y" ["0"]).
  - reflexivity.
  - left. split; [reflexivity | discriminate].
Defined.


(** *** The custom command *)











(** *** The basic scans of the main menu *)

Lemma mem_none (y : string) (l : list string) :
  (forall x, In x l -> x <> y) -> Py.mem y l = false.
Proof.
  intros H. apply mem_not_In. intros Hin. exact (H y Hin eq_refl).
Qed.

(** X28.  With a target set and a session active, the choices [4], [5],
    [6] and [7] of the main menu each start exactly one process: [nmap]
    with the flags of the choice, then [-p <ports>] if ports are set, then
    the target, followed by [-oN <base>.nmap -oX <base>.xml] in the session
    directory, provided neither the target nor the ports are the words [-sn]
    or [-sL].  Target, ports and session are kept. *)
Theorem main_step_basic_scan
    (os_spawn : list string -> Machine -> ProcResult * Machine)
    (os_makedirs : string -> Machine -> string + Machine)
    (s : AppState) (st : St) (line : string) (rest flags : list string)
    (t sess : string) :
  stdin st = line :: rest ->
  basic_flags (Py.strip line) = Some flags ->
  current_target s = Some t ->
  Py.truthy t = true ->
  current_session s = Some sess ->
  Py.truthy sess = true ->
  (forall x, In x (port_args (current_ports s) ++ [t]) -> x <> "-sn" /\ x <> "-sL") ->
  let command := ("nmap" :: flags ++ port_args (current_ports s) ++ [t])%list in
  let base := base_filename sess (clock (machine st)) in
  exists st',
    main_step os_spawn os_makedirs s st = (Ok (Continue s), st')
    /\ stdin st' = rest
    /\ launches (trace st')
       = (launches (trace st)
          ++ [command ++ ["-oN"; (base ++ ".nmap")%string;
                          "-oX"; (base ++ ".xml")%string]])%list.
Proof.
  intros Hin Hflags Htarget Ht Hsess Hs Hplain command base.
  destruct (main_body_reads os_spawn os_makedirs s st) as [tr [Hq Hread]].
  assert (Hscan : forall fl,
             In fl [["-A"; "-T4"]; ["-F"; "-T4"]; ["-sC"]; ["--script"; "vuln"; "-sV"]] ->
             is_nmap_scan "nmap" ("nmap" :: fl ++ port_args (current_ports s) ++ [t]) = true).
  { intros fl Hfl. unfold is_nmap_scan.
    rewrite (mem_none "-sn"), (mem_none "-sL"); [reflexivity | |];
      intros x [<- | Hx]; try discriminate;
      apply in_app_or in Hx; destruct Hx as [Hx | Hx];
      try (apply Hplain; exact Hx);
      cbn [In] in Hfl;
      repeat (destruct Hfl as [<- | Hfl];
              [cbn [In] in Hx;
               repeat (destruct Hx as [<- | Hx]; [discriminate |]); destruct Hx |]);
      destruct Hfl. }
  unfold main_step, try_except, main_body. cbv zeta. rewrite Hread, Hin.
  unfold basic_flags in Hflags.
  destruct (Py.strip line =? "4") eqn:E4;
    [| destruct (Py.strip line =? "5") eqn:E5;
       [| destruct (Py.strip line =? "6") eqn:E6;
          [| destruct (Py.strip line =? "7") eqn:E7; [| discriminate Hflags]]]];
    injection Hflags as <-;
    match goal with
    | E : (Py.strip line =? _) = true |- _ => apply String.eqb_eq in E; rewrite E
    end;
    cbn [String.eqb Ascii.eqb Bool.eqb andb Py.mem existsb orb];
    rewrite Htarget, Hsess; cbn [Py.otruthy str_of_opt]; rewrite Ht; cbn [negb andb app];
    unfold bind;
    match goal with
    | |- context [run_command os_spawn (?c0 :: ?args) ?session ?s0] =>
        destruct (run_command_launch os_spawn c0 args session s0) as [st' [Hrun [Hkeep Hl]]]
    end;
    rewrite Hrun; unfold ret; exists st'; (split; [reflexivity |]);
    cbn [machine stdin trace Py.otruthy str_of_opt] in Hkeep, Hl;
    (split; [exact Hkeep |]);
    rewrite Hl, Hs; cbn [andb];
    match goal with
    | |- context [is_nmap_scan "nmap" ("nmap" :: ?l)] =>
        rewrite (Hscan _ ltac:(cbn [In]; auto 6) : is_nmap_scan "nmap" ("nmap" :: l) = true)
    end;
    rewrite !launches_app, Hq; cbn [launches]; rewrite !app_nil_r;
    unfold extend_outputs, command, base; rewrite <- app_assoc; reflexivity.
Qed.

Lemma main_step_basic_scan_witness :
  exists st',
    main_step quiet_spawn ok_makedirs (mkApp (Some "10.0.0.5") (Some "22,80") (Some "web"))
              (typing (web_box []) ["6"])
    = (Ok (Continue (mkApp (Some "10.0.0.5") (Some "22,80") (Some "web"))), st')
    /\ stdin st' = []
    /\ launches (trace st')
       = ([] ++ [("nmap" :: ["-sC"] ++ ["-p"; "22,80"] ++ ["10.0.0.5"])
                   ++ ["-oN"; "redeye_sessions/web/scan_2025-01-01_12-00-00.nmap";
                       "-oX"; "redeye_sessions/web/scan_2025-01-01_12-00-00.xml"]])%list.
Proof.
  apply (main_step_basic_scan quiet_spawn ok_makedirs
           (mkApp (Some "10.0.0.5") (Some "22,80") (Some "web"))
           (typing (web_box []) ["6"]) "6" [] ["-sC"] "10.0.0.5" "web");
    try reflexivity.
  intros x [<- | [<- | [<- | []]]]; split; discriminate.
Defined.

(** *** The numbers of the listing *)

Lemma print_numbered_lines (files : list string) :
  forall i st,
    exists tr,
      print_numbered i files st
      = (Ok tt, mkSt (machine st) (stdin st) (trace st ++ tr)%list)
      /\ launches tr = []
      /\ forall k f,
          nth_error files k = Some f ->
          In (numbered_line (Z.of_nat (i + k) + 1) f) (written tr).
Proof.
  induction files as [| f0 files IH]; intros i st; cbn [print_numbered].
  - exists []. unfold ret. rewrite app_nil_r. destruct st.
    split; [reflexivity |]. split; [reflexivity |].
    intros [| k] f H; discriminate H.
  - unfold bind, print, write. cbn [machine stdin trace].
    destruct (IH (S i) (mkSt (machine st) (stdin st)
                             (trace st ++ [Write (("  " ++ str_of_Z (Z.of_nat i + 1)
                                                   ++ ". " ++ f0) ++ nl)])%list))
      as [tr [Hrun [Hq Hlines]]].
    rewrite Hrun. cbn [machine stdin trace].
    exists (Write (("  " ++ str_of_Z (Z.of_nat i + 1) ++ ". " ++ f0) ++ nl) :: tr).
    split; [rewrite <- app_assoc; reflexivity |].
    split; [exact Hq |].
    intros [| k] f H; cbn [nth_error] in H; cbn [written In].
    + injection H as <-. left. unfold numbered_line.
      rewrite Nat.add_0_r, !append_assoc. reflexivity.
    + right. replace (i + S k)%nat with (S i + k)%nat by lia. apply Hlines, H.
Qed.

(** X29.  The listing is numbered from 1 and the numbers are the ones
    that select: [list_files_in_session] prints, for every file it returns,
    a line with the file's position in the returned list, first file 1, so
    the number shown before a file is the number [generate_report] and
    [compare_scans] take for it. *)
Theorem list_files_in_session_numbers (session extension : string) (st : St) :
  exists tr,
    list_files_in_session session extension st
    = (Ok (session_files (machine st) session extension),
       mkSt (machine st) (stdin st) (trace st ++ tr)%list)
    /\ forall (n : Z) (f : string),
        (1 <= n)%Z ->
        nth_error (session_files (machine st) session extension) (Z.to_nat (n - 1)) = Some f ->
        In (numbered_line n f) (written tr)
        /\ Py.index (session_files (machine st) session extension) (n - 1) = Some f.
Proof.
  unfold list_files_in_session, session_files, bind, get_machine.
  destruct (fs (machine st) (Py.path_join SESSIONS_DIR session)) as [| entries | c].
  - eexists. split; [reflexivity |]. intros n f _ H.
    destruct (Z.to_nat (n - 1)); discriminate H.
  - destruct (sorted (filter (fun f => Py.endswith f extension) entries))
      as [| f0 files] eqn:Hfiles.
    + eexists. split; [reflexivity |]. intros n f _ H.
      destruct (Z.to_nat (n - 1)); discriminate H.
    + unfold print at 1, write. cbn [machine stdin trace].
      match goal with
      | |- context [print_numbered 0 (f0 :: files) ?s0] =>
          destruct (print_numbered_lines (f0 :: files) 0 s0) as [tr [Hrun [_ Hlines]]]
      end.
      rewrite Hrun. unfold ret. cbn [machine stdin trace].
      eexists. rewrite <- app_assoc. split; [reflexivity |].
      intros n f Hn Hnth. split.
      * rewrite written_app. apply in_or_app. right.
        replace n with (Z.of_nat (0 + Z.to_nat (n - 1)) + 1)%Z at 1 by lia.
        apply Hlines, Hnth.
      * apply index_in_range; assumption.
  - eexists. split; [reflexivity |]. intros n f _ H.
    destruct (Z.to_nat (n - 1)); discriminate H.
Qed.

(** *** Package names under the managers that are detected *)

Lemma detect_os_manager (m : Machine) (os_id p : string)
    (install update : option (list string)) :
  detect_os m = (os_id, Some p, install, update) ->
  In p ["apt"; "pacman"; "dnf"; "yum"; "pkg"].
Proof.
  unfold detect_os, detect_os_release.
  destruct (fs m "/etc/os-release") as [| entries | [raw |]];
    repeat match goal with
           | |- context [if ?b then _ else _] => destruct b
           end;
    intros H; try discriminate H; injection H as _ <- _ _; cbn; tauto.
Qed.

(** X30.  Under every manager [detect_os] can return, [ndiff] is
    installed as [nmap], [nmap] as [nmap] and [xsltproc] as [xsltproc] or
    [libxslt]; so the package list [attempt_install] builds from missing
    required tools never names [ndiff]. *)
Theorem detect_os_package_names (m : Machine) (os_id p : string)
    (install update : option (list string)) (missing : list string) :
  detect_os m = (os_id, Some p, install, update) ->
  incl missing REQUIRED ->
  pkg_name_for_bin "ndiff" (Some p) = "nmap"
  /\ pkg_name_for_bin "nmap" (Some p) = "nmap"
  /\ In (pkg_name_for_bin "xsltproc" (Some p)) ["xsltproc"; "libxslt"]
  /\ ~ In "ndiff" (dedupe [] [] (map (fun b => pkg_name_for_bin b (Some p)) missing)).
Proof.
  intros Hdet Hincl. apply detect_os_manager in Hdet. cbn [In] in Hdet.
  assert (Hnames : forall b, In b REQUIRED -> pkg_name_for_bin b (Some p) <> "ndiff").
  { intros b Hb. cbn [REQUIRED In] in Hb.
    repeat (destruct Hdet as [<- | Hdet];
            [repeat (destruct Hb as [<- | Hb]; [discriminate |]); destruct Hb |]).
    destruct Hdet. }
  split; [| split; [| split]].
  - repeat (destruct Hdet as [<- | Hdet]; [reflexivity |]). destruct Hdet.
  - repeat (destruct Hdet as [<- | Hdet]; [reflexivity |]). destruct Hdet.
  - repeat (destruct Hdet as [<- | Hdet]; [cbn; tauto |]). destruct Hdet.
  - intros Hin.
    destruct (dedupe_invariant (map (fun b => pkg_name_for_bin b (Some p)) missing) [] [])
      as [_ Hsame]; [tauto | constructor |].
    apply Hsame in Hin. destruct Hin as [[] | Hin].
    apply in_map_iff in Hin. destruct Hin as [b [Hb Hbin]].
    exact (Hnames b (Hincl b Hbin) Hb).
Qed.

Lemma detect_os_package_names_witness :
  pkg_name_for_bin "ndiff" (Some "apt") = "nmap"
  /\ pkg_name_for_bin "nmap" (Some "apt") = "nmap"
  /\ In (pkg_name_for_bin "xsltproc" (Some "apt")) ["xsltproc"; "libxslt"]
  /\ ~ In "ndiff" (dedupe [] [] (map (fun b => pkg_name_for_bin b (Some "apt"))
                                     ["nmap"; "ndiff"])).
Proof.
  apply (detect_os_package_names ubuntu_box "ubuntu" "apt"
           (Some ["apt-get"; "install"; "-y"]) (Some ["apt-get"; "update"; "-y"])
           ["nmap"; "ndiff"]).
  - reflexivity.
  - intros b [<- | [<- | []]]; cbn; tauto.
Defined.
